(** * Eller EMBA assistant: a shallow embedding of [app.py]

    [app.py] is a Streamlit script.  Streamlit re-runs the whole script on
    every interaction; what survives from one run to the next is
    [st.session_state] (the transcript) and the [st.cache_resource] cache
    (the backend handles).  One run is modelled as a computation in a small
    state-and-exception monad over that surviving state.  Everything the
    script cannot decide by itself (the secret store, the topics file, the
    widgets, the vector index, the ranker and the language model) is an
    input of the run, gathered in the records [world] and [backend]. *)

From Stdlib Require Import ZArith Lia Ascii.
From stdpp Require Import base option list sorting strings pretty gmap.

Open Scope string_scope.
Open Scope list_scope.

(** ** Python values and exceptions *)

(** The values [json.load] can give back and the values the ranker stores
    in its result dicts. *)
Unset Elimination Schemes.
Inductive pyval :=
| PNone
| PBool (b : bool)
| PInt (z : Z)
| PStr (s : string)
| PList (l : list pyval)
| PDict (d : list (string * pyval)).
Set Elimination Schemes.

(** The exception classes the script names or provokes, and one more
    constructor for whatever else an external service raises. *)
Inductive exn :=
| KeyError (key : string)
| FileNotFoundError (path : string)
| JSONDecodeError (msg : string)
| TypeError (msg : string)
| AttributeError (name : string)
| BackendError (service : string).

(** The result of calling into a library: a value or a raised exception. *)
Inductive result (A : Type) :=
| Ok (a : A)
| Err (e : exn).
Arguments Ok {A} a.
Arguments Err {A} e.

(** ** Data model *)

(** A langchain [Document]. *)
Record document := {
  page_content : string;
  metadata : gmap string pyval
}.

(** An entry of [st.session_state.messages]:
    [{"role": ..., "content": ...}]. *)
Record message := {
  role : string;
  content : string
}.

(** The [filter] entry of [search_kwargs]: field name, then operator, then
    the operand list, as in [{"topics": {"$in": [selected_filter]}}]. *)
Abbreviation metadata_filter := (gmap string (gmap string (list pyval))).

(** [search_kwargs]: the key ["k"] is always bound; the key ["filter"] is
    bound or not. *)
Record search_kwargs := {
  k : Z;
  filter_ : option metadata_filter
}.

(** The handles returned by [initialize_backend_components], seen through
    the three calls the script makes on them. *)
Record backend := {
  (** [vector_store.as_retriever(search_kwargs=...).get_relevant_documents(q)] *)
  get_relevant_documents : search_kwargs → string → result (list document);
  (** [ranker.rerank(RerankRequest(query=..., passages=...))] *)
  ranker_rerank : string → list string → result (list (gmap string pyval));
  (** [(llm | output_parser).invoke(prompt)] *)
  llm_invoke : string → result string
}.

(** What is observable of a run: what is drawn on the page and which calls
    leave the process. *)
Inductive event :=
| StError (body : string) (icon : option string)
| StSelectbox (options : pyval)
| StChatMarkdown (name : string) (body : string)
| InitBackend (openai_api_key : string) (index_name : string)
| Retrieve (kwargs : search_kwargs) (query : string)
| Rerank (query : string) (passages : list string)
| Generate (question : string) (context : string).

(** The inputs of one run of the script. *)
Record world := {
  (** what Streamlit has when [st.secrets] is first read: the entries of
      the secrets file, or the exception that reading them raises (with no
      secrets file at all a [FileNotFoundError], in later versions of
      Streamlit a subclass of it) *)
  secrets_toml : result (gmap string string);
  (** the end of the sentence Streamlit puts in the [KeyError] of a missing
      key, after the key and its closing quote; it differs between versions
      of Streamlit *)
  secrets_advice : string;
  (** [open("topics.json", "r")], and inside it what [json.load] gives *)
  topics_json : result (result pyval);
  (** the value [st.selectbox] returns for the given options *)
  selectbox : pyval → result pyval;
  (** the value [st.chat_input] returns *)
  chat_input : option string;
  (** the constructors called by [initialize_backend_components] *)
  connect : string → string → result backend
}.

(** [st.secrets] as a mapping: no entry when it could not be loaded. *)
Definition secrets (w : world) : gmap string string :=
  match secrets_toml w with
  | Ok entries => entries
  | Err _ => ∅
  end.

(** What survives between runs, and the log of the current run. *)
Record session := {
  messages : option (list message);
  cached_backend : option backend;
  log : list event
}.

Definition transcript (s : session) : list message := default [] (messages s).

(** ** The script monad *)

(** A run either goes on with a value, dies with an uncaught exception, or
    is halted by [st.stop()]. *)
Inductive outcome (A : Type) :=
| Returned (a : A)
| Raised (e : exn)
| Stopped.
Arguments Returned {A} a.
Arguments Raised {A} e.
Arguments Stopped {A}.

Definition script (A : Type) : Type := session → outcome A * session.

Definition ret {A} (a : A) : script A := λ s, (Returned a, s).

Definition bind {A B} (m : script A) (f : A → script B) : script B :=
  λ s, match m s with
       | (Returned a, s') => f a s'
       | (Raised e, s') => (Raised e, s')
       | (Stopped, s') => (Stopped, s')
       end.

Declare Scope script_scope.
Delimit Scope script_scope with script.
Notation "'let*' x ':=' m 'in' f" := (bind m (λ x, f))
  (at level 10, x pattern, m at level 100, f at level 200, only parsing)
  : script_scope.
Notation "m ;; f" := (bind m (λ _, f))
  (at level 100, f at level 200, only parsing, right associativity)
  : script_scope.
Open Scope script_scope.

Definition raise {A} (e : exn) : script A := λ s, (Raised e, s).

(** [st.stop()] *)
Definition st_stop {A} : script A := λ s, (Stopped, s).

Definition lift {A} (r : result A) : script A :=
  match r with
  | Ok a => ret a
  | Err e => raise e
  end.

(** [try: m except <classes of h> as e: h e]; [h e = None] when the
    [except] clause does not match [e]. *)
Definition try_except {A} (m : script A) (h : exn → option (script A)) : script A :=
  λ s, match m s with
       | (Raised e, s') =>
           match h e with
           | Some handler => handler s'
           | None => (Raised e, s')
           end
       | r => r
       end.

(** The session after the events [evs] have been logged. *)
Definition push (evs : list event) (s : session) : session :=
  {| messages := messages s; cached_backend := cached_backend s;
     log := log s ++ evs |}.

Definition emit (ev : event) : script unit :=
  λ s, (Returned tt, push [ev] s).

(** An outgoing call: it is logged when it is made, then it returns or
    raises. *)
Definition call {A} (ev : event) (r : result A) : script A :=
  emit ev ;; lift r.

(** [[f x for x in l]] and [for x in l: f x]: left to right, stopping at
    the first exception. *)
Fixpoint for_each {A B} (f : A → script B) (l : list A) : script (list B) :=
  match l with
  | [] => ret []
  | x :: l' =>
      let* y := f x in
      let* ys := for_each f l' in
      ret (y :: ys)
  end.

(** ** Section 1 of the script: secrets and backend *)

Definition nl : string := String (Ascii.ascii_of_nat 10) EmptyString.
Definition dquote : string := String (Ascii.ascii_of_nat 34) EmptyString.
Definition squote : string := String (Ascii.ascii_of_nat 39) EmptyString.

(** U+1F6A8 in UTF-8. *)
Definition siren : string :=
  String (Ascii.ascii_of_nat 240) (String (Ascii.ascii_of_nat 159)
    (String (Ascii.ascii_of_nat 154) (String (Ascii.ascii_of_nat 168) EmptyString))).

Definition backslash : string := String (Ascii.ascii_of_nat 92) EmptyString.

Definition hex_digit (n : nat) : string :=
  String (nth n (String.list_ascii_of_string "0123456789abcdef") (Ascii.ascii_of_nat 48))
    EmptyString.

(** One character of [repr(s)], [quote] being the code of the quote that
    [repr] puts around [s]. *)
Definition escape_char (quote : nat) (c : Ascii.ascii) : string :=
  let n := Ascii.nat_of_ascii c in
  if Nat.eqb n 92 then backslash +:+ backslash
  else if Nat.eqb n quote then backslash +:+ String c EmptyString
  else if Nat.eqb n 10 then backslash +:+ "n"
  else if Nat.eqb n 13 then backslash +:+ "r"
  else if Nat.eqb n 9 then backslash +:+ "t"
  else if Nat.ltb n 32 || Nat.eqb n 127
       then backslash +:+ "x" +:+ hex_digit (n / 16) +:+ hex_digit (n mod 16)
  else String c EmptyString.

Fixpoint escape_string (quote : nat) (s : string) : string :=
  match s with
  | EmptyString => EmptyString
  | String c s' => escape_char quote c +:+ escape_string quote s'
  end.

Fixpoint has_char (n : nat) (s : string) : bool :=
  match s with
  | EmptyString => false
  | String c s' => Nat.eqb (Ascii.nat_of_ascii c) n || has_char n s'
  end.

(** [repr(s)] of a [str]: between single quotes, or between double quotes
    when [s] holds a single quote and no double quote; backslashes, the
    enclosing quote and control characters escaped.  Strings are UTF-8
    bytes here; the bytes of a character outside ASCII are kept, as [repr]
    keeps every printable character. *)
Definition py_repr (s : string) : string :=
  let quote := if has_char 39 s && negb (has_char 34 s) then 34 else 39 in
  String (Ascii.ascii_of_nat quote)
    (escape_string quote s +:+ String (Ascii.ascii_of_nat quote) EmptyString).

(** [str(KeyError(arg))] is [repr(arg)]. *)
Definition KeyError_str (arg : string) : string := py_repr arg.

(** The argument of the [KeyError] that [st.secrets[key]] raises for a key
    the secrets do not hold: a sentence of Streamlit that begins with
    [st.secrets has no key "<key>"] and goes on with [advice]. *)
Definition streamlit_missing_key (advice key : string) : string :=
  "st.secrets has no key " +:+ dquote +:+ key +:+ dquote +:+ advice.

Definition default_index_name : string := "eller-executive-edu-ak-final".

(** The f-string of line 25, [arg] being the argument of the [KeyError]
    caught. *)
Definition missing_secret_message (arg : string) : string :=
  siren +:+ " Missing Secret: Please set " +:+ KeyError_str arg +:+
  " in your Streamlit Cloud app settings.".

Section Run.

Variable w : world.

(** [st.secrets[key]]: the secrets are loaded, which may raise, then the
    key is looked up. *)
Definition secrets_getitem (key : string) : script string :=
  match secrets_toml w with
  | Ok entries =>
      match entries !! key with
      | Some v => ret v
      | None => raise (KeyError (streamlit_missing_key (secrets_advice w) key))
      end
  | Err e => raise e
  end.

(** [st.secrets.get(key, dflt)], the [get] of [Mapping]: [self[key]], and
    [dflt] on a [KeyError]. *)
Definition secrets_get (key dflt : string) : script string :=
  try_except (secrets_getitem key)
    (λ e, match e with
          | KeyError _ => Some (ret dflt)
          | _ => None
          end).

Definition load_secrets : script (string * string * string) :=
  try_except
    (let* openai_api_key := secrets_getitem "OPENAI_API_KEY" in
     let* pinecone_api_key := secrets_getitem "PINECONE_API_KEY" in
     let* index_name := secrets_get "PINECONE_INDEX_NAME" default_index_name in
     ret (openai_api_key, pinecone_api_key, index_name))
    (λ e, match e with
          | KeyError arg =>
              Some (emit (StError (missing_secret_message arg) (Some siren)) ;;
                    st_stop)
          | _ => None
          end).

(** [@st.cache_resource]: the body runs when nothing is cached, and its
    value is cached when it returns. *)
Definition initialize_backend_components
    (openai_api_key index_name : string) : script backend :=
  λ s, match cached_backend s with
       | Some b => (Returned b, s)
       | None =>
           (let* b := call (InitBackend openai_api_key index_name)
                      (connect w openai_api_key index_name) in
            λ s', (Returned b,
                   {| messages := messages s'; cached_backend := Some b;
                      log := log s' |})) s
       end.


(** ** Helper functions and chains *)

(** [result['text']] *)
Definition dict_getitem (d : gmap string pyval) (key : string) : script pyval :=
  match d !! key with
  | Some v => ret v
  | None => raise (KeyError key)
  end.

Definition rerank_docs (b : backend) (query : string) (docs : list document)
    : script (list pyval) :=
  let passages := page_content <$> docs in
  let* reranked_results := call (Rerank query passages)
                           (ranker_rerank b query passages) in
  for_each (λ result, dict_getitem result "text") (take 5 reranked_results).

(** [sep.join(items)] on strings. *)
Fixpoint join (sep : string) (items : list string) : string :=
  match items with
  | [] => EmptyString
  | [x] => x
  | x :: rest => x +:+ sep +:+ join sep rest
  end.

Definition as_str (v : pyval) : option string :=
  match v with
  | PStr s => Some s
  | _ => None
  end.

(** [type(v).__name__] *)
Definition type_name (v : pyval) : string :=
  match v with
  | PNone => "NoneType"
  | PBool _ => "bool"
  | PInt _ => "int"
  | PStr _ => "str"
  | PList _ => "list"
  | PDict _ => "dict"
  end.

(** The check [str.join] makes on its items, from the left, [i] being the
    index of the first of [items]: the strings, or the [TypeError] for the
    first item that is not a [str]. *)
Fixpoint str_items (i : nat) (items : list pyval) : result (list string) :=
  match items with
  | [] => Ok []
  | PStr s :: rest =>
      match str_items (S i) rest with
      | Ok strs => Ok (s :: strs)
      | Err e => Err e
      end
  | v :: _ =>
      Err (TypeError ("sequence item " +:+ pretty i +:+
                      ": expected str instance, " +:+ type_name v +:+ " found"))
  end.

(** [sep.join(items)] on Python values. *)
Definition str_join (sep : string) (items : list pyval) : script string :=
  match str_items 0 items with
  | Ok strs => ret (join sep strs)
  | Err e => raise e
  end.

Definition qa_template (context question : string) : string :=
  nl +:+
  "You are an expert AI assistant for Eller Executive Education. Your tone is professional, insightful, and academic." +:+ nl +:+
  "Based ONLY on the provided context, synthesize a comprehensive answer to the user's question." +:+ nl +:+
  "If the information is not in the context, state clearly: " +:+ dquote +:+
  "Based on the provided documents, I cannot find information on that topic." +:+ dquote +:+ nl +:+
  nl +:+
  "After providing the answer, suggest 2-3 relevant follow-up questions under a " +:+ dquote +:+
  "--- " +:+ nl +:+ "*Suggested Follow-ups:*" +:+ dquote +:+ " heading." +:+ nl +:+
  nl +:+
  "Context:" +:+ nl +:+
  context +:+ nl +:+
  nl +:+
  "User Question:" +:+ nl +:+
  question +:+ nl +:+
  nl +:+
  "Formatted Response:" +:+ nl.

(** [generate_answer_chain.invoke({"question": ..., "context": ...})] with
    [generate_answer_chain = qa_prompt | llm | output_parser]. *)
Definition generate_answer_chain (b : backend) (question context : string)
    : script string :=
  call (Generate question context) (llm_invoke b (qa_template context question)).

(** ** Section 2 of the script: the user interface *)

Definition load_topics : script pyval :=
  try_except
    (let* f := lift (topics_json w) in
     lift f)
    (λ e, match e with
          | FileNotFoundError _ =>
              Some (emit (StError "`topics.json` not found. Please ensure it's in your GitHub repository."
                                  None) ;;
                    ret (PList [PStr "All"]))
          | _ => None
          end).

Definition sidebar : script pyval :=
  let* available_filters := load_topics in
  call (StSelectbox available_filters) (selectbox w available_filters).

Definition init_messages : script unit :=
  λ s, match messages s with
       | Some _ => (Returned tt, s)
       | None => (Returned tt,
                  {| messages := Some []; cached_backend := cached_backend s;
                     log := log s |})
       end.

(** [st.session_state.messages.append(m)] *)
Definition append_message (m : message) : script unit :=
  λ s, match messages s with
       | Some ms => (Returned tt,
                     {| messages := Some (ms ++ [m]);
                        cached_backend := cached_backend s; log := log s |})
       | None => (Raised (AttributeError "messages"), s)
       end.

Definition render_messages : script unit :=
  λ s, (for_each (λ m, emit (StChatMarkdown (role m) (content m))) (transcript s) ;;
        ret tt) s.

Definition sep : string := nl +:+ nl +:+ "---" +:+ nl +:+ nl.

Definition no_results_message : string :=
  "I could not find relevant information for that specific topic. Please try another search or select 'All' from the dropdown.".

(** [selected_filter != "All"] *)
Definition not_All (selected_filter : pyval) : bool :=
  match selected_filter with
  | PStr s => negb (String.eqb s "All")
  | _ => true
  end.

Definition make_search_kwargs (selected_filter : pyval) : search_kwargs :=
  let search_kwargs := {| k := 25; filter_ := None |} in
  if not_All selected_filter
  then {| k := k search_kwargs;
          filter_ := Some {[ "topics" := {[ "$in" := [selected_filter] ]} ]} |}
  else search_kwargs.

(** [not initial_docs] *)
Definition is_empty {A} (l : list A) : bool :=
  match l with
  | [] => true
  | _ => false
  end.

(** The block under [# --- RAG Execution Logic ---], up to the binding of
    [response] (lines 117 to 131). *)
Definition rag_execution_logic (b : backend) (selected_filter : pyval)
    (user_prompt : string) : script string :=
  let search_kwargs := make_search_kwargs selected_filter in
  let* initial_docs := call (Retrieve search_kwargs user_prompt)
                       (get_relevant_documents b search_kwargs user_prompt) in
  if is_empty initial_docs
  then ret no_results_message
  else
    let* passages := rerank_docs b user_prompt initial_docs in
    let* reranked_context := str_join sep passages in
    generate_answer_chain b user_prompt reranked_context.

(** The body of [if user_prompt := st.chat_input(...):]. *)
Definition chat_handler (b : backend) (selected_filter : pyval)
    (user_prompt : string) : script unit :=
  append_message {| role := "user"; content := user_prompt |} ;;
  emit (StChatMarkdown "user" user_prompt) ;;
  let* response := rag_execution_logic b selected_filter user_prompt in
  emit (StChatMarkdown "assistant" response) ;;
  append_message {| role := "assistant"; content := response |}.

(** The walrus test: [None] and the empty string are falsy. *)
Definition truthy (user_prompt : option string) : option string :=
  match user_prompt with
  | Some EmptyString => None
  | other => other
  end.

Definition chat_interface (b : backend) (selected_filter : pyval) : script unit :=
  init_messages ;;
  render_messages ;;
  match truthy (chat_input w) with
  | Some user_prompt => chat_handler b selected_filter user_prompt
  | None => ret tt
  end.

(** The whole script, top to bottom. *)
Definition app : script unit :=
  let* (openai_api_key, pinecone_api_key, index_name) := load_secrets in
  let* b := initialize_backend_components openai_api_key index_name in
  let* selected_filter := sidebar in
  chat_interface b selected_filter.

End Run.

(** ** Observers used by the statements *)

Definition is_generate (ev : event) : bool :=
  match ev with
  | Generate _ _ => true
  | _ => false
  end.

Definition is_retrieve (ev : event) : bool :=
  match ev with
  | Retrieve _ _ => true
  | _ => false
  end.

Definition is_assistant_markdown (ev : event) : bool :=
  match ev with
  | StChatMarkdown name _ => String.eqb name "assistant"
  | _ => false
  end.

Definition is_init (ev : event) : bool :=
  match ev with
  | InitBackend _ _ => true
  | _ => false
  end.

(** How many times the generation chain was invoked in a log. *)
Definition generator_calls (evs : list event) : nat :=
  length (filter (λ ev, is_generate ev = true) evs).

Definition user_turn (q : string) : message := {| role := "user"; content := q |}.
Definition assistant_turn (r : string) : message :=
  {| role := "assistant"; content := r |}.

(** What a library call that returned or raised makes of the script. *)
Definition outcome_of {A} (r : result A) : outcome A :=
  match r with
  | Ok a => Returned a
  | Err e => Raised e
  end.

(** [sub] occurs in [s]. *)
Definition occurs_in (sub s : string) : Prop :=
  ∃ before after, s = before +:+ sub +:+ after.

(** ** The ranker *)

(** The value a result dict holds under ["text"]. *)
Definition text_of (r : gmap string pyval) : option pyval := r !! "text".

(** A ranker that answers every request and hands its passages back, one
    dict per passage, the passage under the key ["text"], in an order of
    its choice.  The rankers of the examples are of this kind. *)
Definition ranker_contract
    (rerank : string → list string → result (list (gmap string pyval))) : Prop :=
  ∀ query passages,
    ∃ results, rerank query passages = Ok results ∧
               text_of <$> results ≡ₚ (Some ∘ PStr) <$> passages.

(** One call of the ranker went well: it returned [results], and the first
    five of them hold the strings [passages] under ["text"]. *)
Definition reranks_to (b : backend) (query : string) (docs : list document)
    (passages : list string) : Prop :=
  ∃ results, ranker_rerank b query (page_content <$> docs) = Ok results ∧
             text_of <$> take 5 results = (Some ∘ PStr) <$> passages.

(** [p1] may stand before [p2] in the ranking for [query]. *)
Definition ranks_before (score : string → string → Z) (query p1 p2 : string)
    : Prop :=
  (score query p2 ≤ score query p1)%Z.

#[global] Instance ranks_before_dec score query p1 p2 :
  Decision (ranks_before score query p1 p2) :=
  decide (score query p2 ≤ score query p1)%Z.

(** [p] goes before the first passage that does not score higher. *)
Fixpoint insert_ranked (score : string → string → Z) (query p : string)
    (ranked : list string) : list string :=
  match ranked with
  | [] => [p]
  | p' :: rest =>
      if decide (ranks_before score query p p')
      then p :: p' :: rest
      else p' :: insert_ranked score query p rest
  end.

(** Descending by score, passages of equal score in their order in
    [passages]. *)
Fixpoint sort_by_score (score : string → string → Z) (query : string)
    (passages : list string) : list string :=
  match passages with
  | [] => []
  | p :: rest => insert_ranked score query p (sort_by_score score query rest)
  end.

(** Modelled from the spec: the Reranker of section 4.1, which scores each
    candidate against the query and sorts descending by score, ties in
    retrieval order.  The cross-encoder is the parameter [score]; only the
    order of its values matters, so they are integers here.  It is the
    ranker of the examples, a ranker that answers a request of [str]
    passages; FlashRank does not (see [flashrank_rerank]). *)
Definition model_rerank (score : string → string → Z) (query : string)
    (passages : list string) : result (list (gmap string pyval)) :=
  Ok ((λ p, {[ "text" := PStr p; "score" := PInt (score query p) ]}) <$>
      sort_by_score score query passages).

(** ** Concrete runs *)

Definition doc (text : string) : document :=
  {| page_content := text; metadata := ∅ |}.

(** A score for the examples: longer passages first. *)
Definition by_length (query passage : string) : Z :=
  Z.of_nat (String.length passage).

(** A backend that finds three chunks whatever is asked, ranks them with
    [by_length] and echoes the question. *)
Definition demo_backend : backend :=
  {| get_relevant_documents := λ _ _, Ok [doc "bb"; doc "a"; doc "ccc"];
     ranker_rerank := model_rerank by_length;
     llm_invoke := λ prompt, Ok "An answer." |}.

(** The same, with an index that has nothing on the topic. *)
Definition empty_index_backend : backend :=
  {| get_relevant_documents := λ _ _, Ok [];
     ranker_rerank := model_rerank by_length;
     llm_invoke := λ prompt, Ok "An answer." |}.

(** The same as [demo_backend], with a language model that is down. *)
Definition llm_down_backend : backend :=
  {| get_relevant_documents := λ _ _, Ok [doc "bb"; doc "a"; doc "ccc"];
     ranker_rerank := model_rerank by_length;
     llm_invoke := λ prompt, Err (BackendError "openai") |}.

Definition fresh_session : session :=
  {| messages := None; cached_backend := None; log := [] |}.

(** How a recent Streamlit ends the sentence about a missing key. *)
Definition streamlit_advice : string :=
  ". Did you forget to add it to secrets.toml, mount it to secret directory, or the app settings on Streamlit Cloud? More info: https://docs.streamlit.io/deploy/streamlit-community-cloud/deploy-your-app/secrets-management".

Definition demo_secrets : gmap string string :=
  {[ "OPENAI_API_KEY" := "sk-test"; "PINECONE_API_KEY" := "pc-test" ]}.

Definition demo_world : world :=
  {| secrets_toml := Ok demo_secrets;
     secrets_advice := streamlit_advice;
     topics_json := Ok (Ok (PList [PStr "All"; PStr "Finance"]));
     selectbox := λ _, Ok (PStr "Finance");
     chat_input := Some "What is value-based pricing?";
     connect := λ _ _, Ok demo_backend |}.

(** [topics.json] is not there. *)
Definition no_topics_world : world :=
  {| secrets_toml := Ok demo_secrets;
     secrets_advice := streamlit_advice;
     topics_json := Err (FileNotFoundError "topics.json");
     selectbox := λ _, Ok (PStr "All");
     chat_input := None;
     connect := λ _ _, Ok demo_backend |}.

(** [topics.json] is there and is not JSON. *)
Definition corrupt_topics_world : world :=
  {| secrets_toml := Ok demo_secrets;
     secrets_advice := streamlit_advice;
     topics_json := Ok (Err (JSONDecodeError "Expecting value: line 1 column 1 (char 0)"));
     selectbox := λ _, Ok (PStr "All");
     chat_input := None;
     connect := λ _ _, Ok demo_backend |}.

(** The Pinecone key was never set. *)
Definition no_pinecone_key_world : world :=
  {| secrets_toml := Ok ({[ "OPENAI_API_KEY" := "sk-test" ]});
     secrets_advice := streamlit_advice;
     topics_json := Ok (Ok (PList [PStr "All"]));
     selectbox := λ _, Ok (PStr "All");
     chat_input := None;
     connect := λ _ _, Ok demo_backend |}.

(** The language model is down when the question comes. *)
Definition llm_down_world : world :=
  {| secrets_toml := Ok demo_secrets;
     secrets_advice := streamlit_advice;
     topics_json := Ok (Ok (PList [PStr "All"]));
     selectbox := λ _, Ok (PStr "All");
     chat_input := Some "What is value-based pricing?";
     connect := λ _ _, Ok llm_down_backend |}.

(** A session with one exchange behind it. *)
Definition ongoing_session : session :=
  {| messages := Some [user_turn "Hello"; assistant_turn "Hi."];
     cached_backend := Some demo_backend;
     log := [] |}.

(** ** Backend failures *)

(** The session with its transcript replaced. *)
Definition set_messages (ms : list message) (s : session) : session :=
  {| messages := Some ms; cached_backend := cached_backend s; log := log s |}.

(** The events that redraw a transcript. *)
Definition redraw (ms : list message) : list event :=
  (λ m, StChatMarkdown (role m) (content m)) <$> ms.

(** A call that leaves the process. *)
Definition is_call (ev : event) : bool :=
  match ev with
  | Retrieve _ _ | Rerank _ _ | Generate _ _ => true
  | _ => false
  end.

(** One of the three services raises [e] in the turn that answers
    [user_prompt]: the index, or the ranker once chunks are there, or the
    language model once the passages are there. *)
Inductive backend_fails (b : backend) (selected_filter : pyval)
    (user_prompt : string) (e : exn) : Prop :=
| retrieval_fails :
    get_relevant_documents b (make_search_kwargs selected_filter) user_prompt = Err e →
    backend_fails b selected_filter user_prompt e
| rerank_fails (docs : list document) :
    get_relevant_documents b (make_search_kwargs selected_filter) user_prompt = Ok docs →
    docs ≠ [] →
    ranker_rerank b user_prompt (page_content <$> docs) = Err e →
    backend_fails b selected_filter user_prompt e
| generation_fails (docs : list document) (passages : list string) :
    get_relevant_documents b (make_search_kwargs selected_filter) user_prompt = Ok docs →
    docs ≠ [] →
    reranks_to b user_prompt docs passages →
    llm_invoke b (qa_template (join sep passages) user_prompt) = Err e →
    backend_fails b selected_filter user_prompt e.

(** The run ends normally and the last thing it drew is an assistant
    message: what a caught failure, turned into text, would look like. *)
Definition ends_with_assistant_text (w : world) (b : backend)
    (selected_filter : pyval) (s : session) : Prop :=
  ∃ text s', chat_interface w b selected_filter s = (Returned tt, s') ∧
             last (log s') = Some (StChatMarkdown "assistant" text).

(** What Python raises for [passage["text"]] when [passage] is a [str]
    (the wording of Python 3.11 and later; earlier versions end the message
    after "integers"). *)
Definition str_subscript_error : exn :=
  TypeError "string indices must be integers, not 'str'".

(** FlashRank's [Ranker.rerank] on the request [rerank_docs] builds.  It
    begins with [[[query, passage["text"]] for passage in passages]]: every
    passage is subscripted with ["text"], and the passages of [rerank_docs]
    are [str] objects, so the first of them raises.  With no passage
    nothing is subscripted; what the library answers then is [on_empty]
    (the script never sends such a request). *)
Definition flashrank_rerank (on_empty : result (list (gmap string pyval)))
    (query : string) (passages : list string)
    : result (list (gmap string pyval)) :=
  match passages with
  | [] => on_empty
  | _ :: _ => Err str_subscript_error
  end.

(** An index that finds three chunks, the ranker as FlashRank answers the
    script, a language model that is up. *)
Definition flashrank_backend (on_empty : result (list (gmap string pyval)))
    : backend :=
  {| get_relevant_documents := λ _ _, Ok [doc "bb"; doc "a"; doc "ccc"];
     ranker_rerank := flashrank_rerank on_empty;
     llm_invoke := λ prompt, Ok "An answer." |}.




(** An index that is down for one question and finds three chunks for any
    other. *)
Definition moody_backend : backend :=
  {| get_relevant_documents := λ _ q,
       if String.eqb q "What is a bond?"
       then Err (BackendError "pinecone")
       else Ok [doc "bb"; doc "a"; doc "ccc"];
     ranker_rerank := model_rerank by_length;
     llm_invoke := λ prompt, Ok "An answer." |}.

Definition asking (q : string) : world :=
  {| secrets_toml := Ok demo_secrets;
     secrets_advice := streamlit_advice;
     topics_json := Ok (Ok (PList [PStr "All"]));
     selectbox := λ _, Ok (PStr "All");
     chat_input := Some q;
     connect := λ _ _, Ok moody_backend |}.

(** A session with one exchange behind it and [moody_backend] cached. *)
Definition moody_session : session :=
  {| messages := Some [user_turn "Hello"; assistant_turn "Hi."];
     cached_backend := Some moody_backend;
     log := [] |}.

(** The run draws an error message that holds [key]. *)
Definition names_missing_key (w : world) (s : session) (key : string) : Prop :=
  ∃ body icon, StError body icon ∈ log (app w s).2 ∧ occurs_in key body.

(** There is no secrets file. *)
Definition no_secrets_file_world : world :=
  {| secrets_toml := Err (FileNotFoundError "secrets.toml");
     secrets_advice := streamlit_advice;
     topics_json := Ok (Ok (PList [PStr "All"]));
     selectbox := λ _, Ok (PStr "All");
     chat_input := None;
     connect := λ _ _, Ok demo_backend |}.

(** Loading the topics ends normally with the single option ["All"]. *)
Definition degrades_to_All (w : world) (s : session) : Prop :=
  ∃ s', load_topics w s = (Returned (PList [PStr "All"]), s').

(** Whatever the session it starts from, [m] keeps what is in the log and
    adds to its end. *)
Definition extends_log {A} (m : script A) : Prop :=
  ∀ s, ∃ evs, log (m s).2 = log s ++ evs.

Definition topics_not_found_message : string :=
  "`topics.json` not found. Please ensure it's in your GitHub repository.".

(** ** More observers: whole sessions *)

(** [m] never looks at the session: its outcome and the events it logs are
    the same from every session, the events all satisfy [P], and it leaves
    the transcript and the cache alone. *)
Definition stateless {A} (P : event → bool) (m : script A) : Prop :=
  ∃ o evs, Forall (λ ev, P ev = true) evs ∧ ∀ s, m s = (o, push evs s).

Definition no_init (ev : event) : bool := negb (is_init ev).

(** What one run may append to the transcript. *)
Definition turn_suffix (suffix : list message) : Prop :=
  suffix = [] ∨
  (∃ q, suffix = [user_turn q]) ∨
  (∃ q r, suffix = [user_turn q; assistant_turn r]).

(** [s'] comes after [s]: the transcript grew by one turn at most, the
    cache is the same, the log grew by events that satisfy [P]. *)
Definition advances (P : event → bool) (s s' : session) : Prop :=
  ∃ suffix evs,
    transcript s' = transcript s ++ suffix ∧ turn_suffix suffix ∧
    cached_backend s' = cached_backend s ∧
    log s' = log s ++ evs ∧ Forall (λ ev, P ev = true) evs.

(** Every assistant entry stands right after a user entry. *)
Definition well_paired (t : list message) : Prop :=
  ∀ i m, t !! i = Some m → role m = "assistant" →
         ∃ j u, i = S j ∧ t !! j = Some u ∧ role u = "user".

(** The session after the script has run once for each world of [ws], in
    turn. *)
Definition run_many (ws : list world) (s : session) : session :=
  foldl (λ s w, (app w s).2) s ws.

(** What stands between the context and the question in the prompt. *)
Definition qa_middle : string := nl +:+ nl +:+ "User Question:" +:+ nl.

(** The six ways the block that computes the response can go, each with
    its outcome and the calls it makes: the index raises; the index finds
    nothing; the ranker raises; one of the first five results has no
    ["text"]; one of them holds something that is not a string; the
    passages reach the generation chain. *)
Inductive rag_case (b : backend) (selected_filter : pyval) (user_prompt : string)
    : outcome string → list event → Prop :=
| case_retrieval_error e :
    get_relevant_documents b (make_search_kwargs selected_filter) user_prompt = Err e →
    rag_case b selected_filter user_prompt (Raised e)
      [Retrieve (make_search_kwargs selected_filter) user_prompt]
| case_no_results :
    get_relevant_documents b (make_search_kwargs selected_filter) user_prompt = Ok [] →
    rag_case b selected_filter user_prompt (Returned no_results_message)
      [Retrieve (make_search_kwargs selected_filter) user_prompt]
| case_ranker_error docs e :
    get_relevant_documents b (make_search_kwargs selected_filter) user_prompt = Ok docs →
    docs ≠ [] →
    ranker_rerank b user_prompt (page_content <$> docs) = Err e →
    rag_case b selected_filter user_prompt (Raised e)
      [Retrieve (make_search_kwargs selected_filter) user_prompt;
       Rerank user_prompt (page_content <$> docs)]
| case_text_missing docs results :
    get_relevant_documents b (make_search_kwargs selected_filter) user_prompt = Ok docs →
    docs ≠ [] →
    ranker_rerank b user_prompt (page_content <$> docs) = Ok results →
    (∃ r, r ∈ take 5 results ∧ text_of r = None) →
    rag_case b selected_filter user_prompt (Raised (KeyError "text"))
      [Retrieve (make_search_kwargs selected_filter) user_prompt;
       Rerank user_prompt (page_content <$> docs)]
| case_text_not_str docs results values e :
    get_relevant_documents b (make_search_kwargs selected_filter) user_prompt = Ok docs →
    docs ≠ [] →
    ranker_rerank b user_prompt (page_content <$> docs) = Ok results →
    text_of <$> take 5 results = Some <$> values →
    str_items 0 values = Err e →
    rag_case b selected_filter user_prompt (Raised e)
      [Retrieve (make_search_kwargs selected_filter) user_prompt;
       Rerank user_prompt (page_content <$> docs)]
| case_generate docs passages :
    get_relevant_documents b (make_search_kwargs selected_filter) user_prompt = Ok docs →
    docs ≠ [] →
    reranks_to b user_prompt docs passages →
    rag_case b selected_filter user_prompt
      (outcome_of (llm_invoke b (qa_template (join sep passages) user_prompt)))
      [Retrieve (make_search_kwargs selected_filter) user_prompt;
       Rerank user_prompt (page_content <$> docs);
       Generate user_prompt (join sep passages)].

(** ** More concrete runs *)

(** The index name is set in the secret store. *)
Definition custom_index_world : world :=
  {| secrets_toml := Ok (<[ "PINECONE_INDEX_NAME" := "emba-2025" ]> demo_secrets);
     secrets_advice := streamlit_advice;
     topics_json := Ok (Ok (PList [PStr "All"; PStr "Finance"]));
     selectbox := λ _, Ok (PStr "All");
     chat_input := None;
     connect := λ _ _, Ok demo_backend |}.

(** Pinecone cannot be reached when the backend is created. *)
Definition connect_down_world : world :=
  {| secrets_toml := Ok demo_secrets;
     secrets_advice := streamlit_advice;
     topics_json := Ok (Ok (PList [PStr "All"]));
     selectbox := λ _, Ok (PStr "All");
     chat_input := Some "What is value-based pricing?";
     connect := λ _ _, Err (BackendError "pinecone") |}.

(** No secret at all, and a question typed. *)
Definition no_secrets_world : world :=
  {| secrets_toml := Ok ∅;
     secrets_advice := streamlit_advice;
     topics_json := Ok (Ok (PList [PStr "All"]));
     selectbox := λ _, Ok (PStr "All");
     chat_input := Some "What is value-based pricing?";
     connect := λ _ _, Ok demo_backend |}.

(** Nothing typed. *)
Definition idle_world : world :=
  {| secrets_toml := Ok demo_secrets;
     secrets_advice := streamlit_advice;
     topics_json := Ok (Ok (PList [PStr "All"; PStr "Finance"]));
     selectbox := λ _, Ok (PStr "All");
     chat_input := None;
     connect := λ _ _, Ok demo_backend |}.

(** A ranker whose second result has no ["text"]. *)
Definition missing_text_backend : backend :=
  {| get_relevant_documents := λ _ _, Ok [doc "bb"; doc "a"];
     ranker_rerank := λ _ _, Ok [ {[ "text" := PStr "bb" ]}; {[ "id" := PInt 1 ]} ];
     llm_invoke := λ prompt, Ok "An answer." |}.

(** A ranker that stores a number under ["text"]. *)
Definition int_text_backend : backend :=
  {| get_relevant_documents := λ _ _, Ok [doc "bb"; doc "a"];
     ranker_rerank := λ _ _, Ok [ {[ "text" := PStr "bb" ]}; {[ "text" := PInt 7 ]} ];
     llm_invoke := λ prompt, Ok "An answer." |}.

(** A ranker that returns six results, the sixth without ["text"]. *)
Definition six_results_backend : backend :=
  {| get_relevant_documents := λ _ _, Ok [doc "bb"; doc "a"];
     ranker_rerank := λ _ _,
       Ok (((λ p, {[ "text" := PStr p ]}) <$> ["1"; "2"; "3"; "4"; "5"]) ++ [∅]);
     llm_invoke := λ prompt, Ok "An answer." |}.

(** * Properties *)

(** ** The log *)

Lemma push_nil s : push [] s = s.
Proof. destruct s; unfold push; simpl. by rewrite app_nil_r. Qed.

Lemma push_push evs1 evs2 s : push evs2 (push evs1 s) = push (evs1 ++ evs2) s.
Proof. unfold push; simpl. by rewrite app_assoc. Qed.

Lemma messages_push evs s : messages (push evs s) = messages s.
Proof. done. Qed.

Lemma log_push evs s : log (push evs s) = log s ++ evs.
Proof. done. Qed.

Lemma generator_calls_app evs1 evs2 :
  generator_calls (evs1 ++ evs2) = generator_calls evs1 + generator_calls evs2.
Proof. unfold generator_calls. by rewrite filter_app, length_app. Qed.

(** ** Running the monad *)

Lemma bind_returned {A B} (m : script A) (f : A → script B) s a s' :
  m s = (Returned a, s') → bind m f s = f a s'.
Proof. unfold bind. by intros ->. Qed.

Lemma bind_raised {A B} (m : script A) (f : A → script B) s e s' :
  m s = (Raised e, s') → bind m f s = (Raised e, s').
Proof. unfold bind. by intros ->. Qed.

Lemma bind_stopped {A B} (m : script A) (f : A → script B) s s' :
  m s = (Stopped, s') → bind m f s = (Stopped, s').
Proof. unfold bind. by intros ->. Qed.

Lemma emit_run ev s : emit ev s = (Returned tt, push [ev] s).
Proof. done. Qed.

Lemma call_run {A} ev (r : result A) s :
  call ev r s = (outcome_of r, push [ev] s).
Proof. by destruct r. Qed.

(** ** The ranker and [rerank_docs] *)

Lemma for_each_text results values s :
  text_of <$> results = Some <$> values →
  for_each (λ result, dict_getitem result "text") results s = (Returned values, s).
Proof.
  revert values. induction results as [|r results IH]; intros [|v values] Heq;
    simplify_eq/=; [done|].
  erewrite bind_returned; last first.
  { unfold dict_getitem. unfold text_of in *.
    match goal with H : _ !! _ = Some _ |- _ => by rewrite H end. }
  by erewrite bind_returned; [|by apply IH].
Qed.

Lemma rerank_docs_run b query docs passages s :
  reranks_to b query docs passages →
  rerank_docs b query docs s =
    (Returned (PStr <$> passages), push [Rerank query (page_content <$> docs)] s).
Proof.
  intros (results & Hcall & Htexts). unfold rerank_docs.
  erewrite bind_returned; [|by rewrite call_run, Hcall].
  apply for_each_text. by rewrite Htexts, list_fmap_compose.
Qed.

Lemma for_each_length {A B} (f : A → script B) xs s ys s' :
  for_each f xs s = (Returned ys, s') → length ys = length xs.
Proof.
  revert s ys. induction xs as [|x xs IH]; intros s ys; simpl.
  - unfold ret. intros ?. by simplify_eq.
  - unfold bind at 1. destruct (f x s) as [[y|e|] s1]; [|done..].
    unfold bind. destruct (for_each f xs s1) as [[ys'|e|] s2] eqn:Hrest; [|done..].
    unfold ret. intros ?. simplify_eq. simpl. f_equal. by eapply IH.
Qed.

(** Whatever the ranker does, [rerank_docs] never returns more than five
    items. *)
Lemma rerank_docs_at_most_five b query docs s (out : list pyval) s' :
  rerank_docs b query docs s = (Returned out, s') → (length out ≤ 5)%nat.
Proof.
  unfold rerank_docs, bind. rewrite call_run.
  destruct (ranker_rerank b query (page_content <$> docs)) as [results|e]; [|done].
  simpl. intros Hrun%for_each_length. rewrite Hrun, length_take. lia.
Qed.

Lemma insert_ranked_Permutation score query p ranked :
  insert_ranked score query p ranked ≡ₚ p :: ranked.
Proof.
  induction ranked as [|p' rest IH]; simpl; [done|].
  case_decide; [done|]. by rewrite IH, Permutation_swap.
Qed.

Lemma sort_by_score_Permutation score query passages :
  sort_by_score score query passages ≡ₚ passages.
Proof.
  induction passages as [|p rest IH]; simpl; [done|].
  by rewrite insert_ranked_Permutation, IH.
Qed.

Lemma insert_ranked_sorted score query p ranked :
  StronglySorted (ranks_before score query) ranked →
  StronglySorted (ranks_before score query) (insert_ranked score query p ranked).
Proof.
  induction 1 as [|p' rest Hsorted IH Hall]; simpl; [by repeat constructor|].
  case_decide as Hp.
  - constructor; [by constructor|]. constructor; [done|].
    eapply Forall_impl; [exact Hall|]. unfold ranks_before in *. intros; lia.
  - constructor; [done|]. rewrite insert_ranked_Permutation.
    constructor; [|done]. unfold ranks_before in *. lia.
Qed.

(** The model does sort: every passage scores at least as high as those
    after it. *)
Lemma sort_by_score_sorted score query passages :
  StronglySorted (ranks_before score query) (sort_by_score score query passages).
Proof.
  induction passages as [|p rest IH]; simpl; [constructor|].
  by apply insert_ranked_sorted.
Qed.

Example sort_by_score_ties :
  sort_by_score (λ _ p, Z.of_nat (String.length p)) "q"
    ["aa"; "b"; "cc"; "d"; "ee"; "f"; "ggg"] =
    ["ggg"; "aa"; "cc"; "ee"; "b"; "d"; "f"].
Proof. reflexivity. Qed.

Lemma model_rerank_contract score : ranker_contract (model_rerank score).
Proof.
  intros query passages. eexists. split; [done|].
  rewrite <- list_fmap_compose, sort_by_score_Permutation.
  apply reflexive_eq, list_fmap_ext. intros _ p _. simpl.
  unfold text_of. by simplify_map_eq.
Qed.

Example rerank_docs_demo :
  rerank_docs demo_backend "q" [doc "bb"; doc "a"; doc "ccc"] fresh_session =
    (Returned [PStr "ccc"; PStr "bb"; PStr "a"],
     push [Rerank "q" ["bb"; "a"; "ccc"]] fresh_session).
Proof. vm_compute. reflexivity. Qed.

Example rerank_docs_demo_seven :
  (rerank_docs demo_backend "q"
     (doc <$> ["1"; "22"; "333"; "4444"; "55555"; "666666"; "7777777"])
     fresh_session).1 =
    Returned (PStr <$> ["7777777"; "666666"; "55555"; "4444"; "333"]).
Proof. vm_compute. reflexivity. Qed.

Lemma flashrank_rejects_str_passages on_empty query (docs : list document) :
  docs ≠ [] →
  ranker_rerank (flashrank_backend on_empty) query (page_content <$> docs) =
    Err str_subscript_error.
Proof. by destruct docs. Qed.

(** C2, at the failing input.  [rerank_docs] has no handler around the
    call of the ranker: when the ranker raises, as FlashRank does on the
    [str] passages [rerank_docs] sends it, [rerank_docs] raises the same
    exception right after the call and returns no sequence at all, of no
    length. *)
Theorem rerank_docs_ranker_raises
    (b : backend) (query : string) (docs : list document) (s : session) (e : exn) :
  ranker_rerank b query (page_content <$> docs) = Err e →
  rerank_docs b query docs s =
    (Raised e, push [Rerank query (page_content <$> docs)] s) ∧
  ∀ out s', rerank_docs b query docs s ≠ (Returned out, s').
Proof.
  intros Hrank.
  assert (rerank_docs b query docs s =
            (Raised e, push [Rerank query (page_content <$> docs)] s)) as ->.
  { unfold rerank_docs. by erewrite bind_raised by (by rewrite call_run, Hrank). }
  done.
Qed.

Lemma rerank_docs_ranker_raises_witness :
  rerank_docs (flashrank_backend (Ok [])) "q" [doc "bb"; doc "a"; doc "ccc"]
      fresh_session =
    (Raised (TypeError "string indices must be integers, not 'str'"),
     push [Rerank "q" ["bb"; "a"; "ccc"]] fresh_session) ∧
  ∀ out s',
    rerank_docs (flashrank_backend (Ok [])) "q" [doc "bb"; doc "a"; doc "ccc"]
      fresh_session ≠ (Returned out, s').
Proof.
  apply (rerank_docs_ranker_raises (flashrank_backend (Ok [])) "q"
           [doc "bb"; doc "a"; doc "ccc"] fresh_session str_subscript_error).
  reflexivity.
Defined.

(** ** The retrieval, rerank and generate pipeline *)

Lemma not_All_spec selected_filter :
  not_All selected_filter = false ↔ selected_filter = PStr "All".
Proof.
  destruct selected_filter as [| | |s| |]; simpl; try (split; [done|by inversion 1]).
  rewrite negb_false_iff, String.eqb_eq. split; [by intros ->|by inversion 1].
Qed.

Lemma make_search_kwargs_spec selected_filter :
  k (make_search_kwargs selected_filter) = 25%Z ∧
  (selected_filter = PStr "All" ∧
     filter_ (make_search_kwargs selected_filter) = None ∨
   selected_filter ≠ PStr "All" ∧
     filter_ (make_search_kwargs selected_filter) =
       Some {[ "topics" := {[ "$in" := [selected_filter] ]} ]}).
Proof.
  unfold make_search_kwargs.
  destruct (not_All selected_filter) eqn:Hsel; simpl; (split; [done|]).
  - right. split; [|done]. intros Heq%not_All_spec. congruence.
  - left. by apply not_All_spec in Hsel.
Qed.

Lemma for_each_text_frame results s :
  ∃ o, for_each (λ result, dict_getitem result "text") results s = (o, s).
Proof.
  induction results as [|r results [o IH]]; [by eexists|]. simpl.
  destruct (r !! "text") as [v|] eqn:Hr.
  - erewrite bind_returned by (unfold dict_getitem; by rewrite Hr).
    destruct o as [vs|e|].
    + erewrite bind_returned by exact IH. by eexists.
    + erewrite bind_raised by exact IH. by eexists.
    + erewrite bind_stopped by exact IH. by eexists.
  - erewrite bind_raised by (unfold dict_getitem; by rewrite Hr). by eexists.
Qed.

Lemma rerank_docs_frame b query docs s :
  ∃ o, rerank_docs b query docs s =
         (o, push [Rerank query (page_content <$> docs)] s).
Proof.
  unfold rerank_docs.
  destruct (ranker_rerank b query (page_content <$> docs)) as [results|e] eqn:Hcall.
  - erewrite bind_returned by (by rewrite call_run).
    apply for_each_text_frame.
  - erewrite bind_raised by (by rewrite call_run). by eexists.
Qed.

Lemma str_join_frame items s : ∃ o, str_join sep items s = (o, s).
Proof. unfold str_join. destruct (str_items 0 items); by eexists. Qed.

Lemma str_join_strings passages s :
  str_join sep (PStr <$> passages) s = (Returned (join sep passages), s).
Proof.
  unfold str_join.
  assert (∀ i, str_items i (PStr <$> passages) = Ok passages) as ->; [|done].
  induction passages as [|p passages IH]; intros i; [done|].
  rewrite fmap_cons. simpl. by rewrite IH.
Qed.

Lemma generate_answer_chain_run b question context s :
  generate_answer_chain b question context s =
    (outcome_of (llm_invoke b (qa_template context question)),
     push [Generate question context] s).
Proof. apply call_run. Qed.

(** The outgoing calls of one turn: the retrieval, then possibly the
    ranker, then possibly the generation chain. *)
Lemma rag_execution_logic_trace b selected_filter user_prompt s :
  ∃ o rest,
    rag_execution_logic b selected_filter user_prompt s =
      (o, push (Retrieve (make_search_kwargs selected_filter) user_prompt :: rest) s) ∧
    (rest = [] ∨
     (∃ passages, rest = [Rerank user_prompt passages]) ∨
     (∃ passages context,
        rest = [Rerank user_prompt passages; Generate user_prompt context])).
Proof.
  unfold rag_execution_logic.
  set (kw := make_search_kwargs selected_filter).
  destruct (get_relevant_documents b kw user_prompt) as [docs|e] eqn:Hget.
  2:{ erewrite bind_raised by (by rewrite call_run). eauto 6. }
  erewrite bind_returned by (by rewrite call_run).
  destruct docs as [|d docs]; simpl; [unfold ret; eauto 6|].
  destruct (rerank_docs_frame b user_prompt (d :: docs) (push [Retrieve kw user_prompt] s))
    as [[vs|e|] Hrr]; rewrite push_push in Hrr.
  2:{ erewrite bind_raised by exact Hrr. eauto 8. }
  2:{ erewrite bind_stopped by exact Hrr. eauto 8. }
  erewrite bind_returned by exact Hrr.
  match goal with |- context [bind (str_join sep vs) ?f ?s0] =>
    destruct (str_join_frame vs s0) as [[ctx|e|] Hj] end.
  2:{ erewrite bind_raised by exact Hj. eauto 8. }
  2:{ erewrite bind_stopped by exact Hj. eauto 8. }
  erewrite bind_returned by exact Hj.
  rewrite generate_answer_chain_run, push_push. simpl. eauto 10.
Qed.



Example join_three : join "|" ["ccc"; "bb"; "a"] = "ccc|bb|a".
Proof. reflexivity. Qed.

(** C1. Whatever the question and the selected topic, when the retrieval
    returns no chunk the response is the sentence that begins "I could not
    find relevant information", word for word; the only call that left the
    process is the retrieval, so the generation chain is not invoked; and
    the transcript ends with the question under ["user"] and that sentence
    under ["assistant"]. *)
Theorem no_results_short_circuit
    (b : backend) (selected_filter : pyval) (user_prompt : string) (s : session) :
  get_relevant_documents b (make_search_kwargs selected_filter) user_prompt = Ok [] →
  rag_execution_logic b selected_filter user_prompt s =
    (Returned "I could not find relevant information for that specific topic. Please try another search or select 'All' from the dropdown.",
     push [Retrieve (make_search_kwargs selected_filter) user_prompt] s) ∧
  generator_calls (log (rag_execution_logic b selected_filter user_prompt s).2) =
    generator_calls (log s) ∧
  (∀ ms, messages s = Some ms →
     (chat_handler b selected_filter user_prompt s).1 = Returned tt ∧
     transcript (chat_handler b selected_filter user_prompt s).2 =
       ms ++ [{| role := "user"; content := user_prompt |};
             {| role := "assistant";
                content := "I could not find relevant information for that specific topic. Please try another search or select 'All' from the dropdown." |}] ∧
     generator_calls (log (chat_handler b selected_filter user_prompt s).2) =
       generator_calls (log s)).
Proof.
  intros Hget.
  assert (∀ s0, rag_execution_logic b selected_filter user_prompt s0 =
            (Returned no_results_message,
             push [Retrieve (make_search_kwargs selected_filter) user_prompt] s0))
    as Hrag.
  { intros s0. unfold rag_execution_logic.
    by erewrite bind_returned by (by rewrite call_run, Hget). }
  split; [apply Hrag|]. split.
  { rewrite Hrag. simpl. rewrite generator_calls_app. simpl.
    unfold generator_calls at 2. simpl. lia. }
  intros ms Hms. unfold chat_handler.
  erewrite bind_returned by (unfold append_message; by rewrite Hms).
  erewrite bind_returned by apply emit_run.
  erewrite bind_returned by apply Hrag.
  erewrite bind_returned by apply emit_run.
  unfold append_message, transcript, generator_calls. simpl.
  rewrite <- !app_assoc, !filter_app. simpl.
  split; [done|]. split; [done|]. rewrite !length_app. simpl. lia.
Qed.

Lemma no_results_short_circuit_witness :
  rag_execution_logic empty_index_backend (PStr "Finance") "What is a bond?"
      ongoing_session =
    (Returned "I could not find relevant information for that specific topic. Please try another search or select 'All' from the dropdown.",
     push [Retrieve (make_search_kwargs (PStr "Finance")) "What is a bond?"]
       ongoing_session) ∧
  generator_calls
    (log (rag_execution_logic empty_index_backend (PStr "Finance")
            "What is a bond?" ongoing_session).2) =
    generator_calls (log ongoing_session) ∧
  (∀ ms, messages ongoing_session = Some ms →
     (chat_handler empty_index_backend (PStr "Finance") "What is a bond?"
        ongoing_session).1 = Returned tt ∧
     transcript (chat_handler empty_index_backend (PStr "Finance")
                   "What is a bond?" ongoing_session).2 =
       ms ++ [{| role := "user"; content := "What is a bond?" |};
             {| role := "assistant";
                content := "I could not find relevant information for that specific topic. Please try another search or select 'All' from the dropdown." |}] ∧
     generator_calls
       (log (chat_handler empty_index_backend (PStr "Finance")
               "What is a bond?" ongoing_session).2) =
       generator_calls (log ongoing_session)).
Proof.
  apply (no_results_short_circuit empty_index_backend (PStr "Finance")
           "What is a bond?" ongoing_session).
  reflexivity.
Defined.

(** C4. In every turn exactly one retrieval request leaves the process,
    before any other call; it asks for [k = 25]; it carries no filter when
    the selected topic is ["All"], and for any other selected value it
    carries the filter [{"topics": {"$in": [selected]}}], the membership
    of the selected value in the chunk's topics. *)
Theorem retrieval_request
    (b : backend) (selected_filter : pyval) (user_prompt : string) (s : session) :
  ∃ o kwargs rest,
    rag_execution_logic b selected_filter user_prompt s =
      (o, push (Retrieve kwargs user_prompt :: rest) s) ∧
    filter (λ ev, is_retrieve ev = true) rest = [] ∧
    k kwargs = 25%Z ∧
    (selected_filter = PStr "All" ∧ filter_ kwargs = None ∨
     selected_filter ≠ PStr "All" ∧
       filter_ kwargs = Some {[ "topics" := {[ "$in" := [selected_filter] ]} ]}).
Proof.
  destruct (rag_execution_logic_trace b selected_filter user_prompt s)
    as (o & rest & Hrun & Hrest).
  exists o, (make_search_kwargs selected_filter), rest.
  split; [done|]. split.
  - destruct Hrest as [->|[[ps ->]|(ps & ctx & ->)]]; done.
  - apply make_search_kwargs_spec.
Qed.

Example retrieval_request_All :
  make_search_kwargs (PStr "All") = {| k := 25; filter_ := None |}.
Proof. reflexivity. Qed.

Example retrieval_request_Finance :
  make_search_kwargs (PStr "Finance") =
    {| k := 25;
       filter_ := Some {[ "topics" := {[ "$in" := [PStr "Finance"] ]} ]} |}.
Proof. reflexivity. Qed.




(** ** The transcript *)

Lemma init_messages_run s :
  init_messages s = (Returned tt, set_messages (transcript s) s).
Proof. unfold init_messages, set_messages, transcript. by destruct s as [[ms|] c l]. Qed.

Lemma append_message_run m ms s :
  messages s = Some ms →
  append_message m s = (Returned tt, set_messages (ms ++ [m]) s).
Proof. unfold append_message. by intros ->. Qed.

Lemma for_each_emit {A} (f : A → event) (xs : list A) s :
  for_each (λ x, emit (f x)) xs s = (Returned (const tt <$> xs), push (f <$> xs) s).
Proof.
  revert s. induction xs as [|x xs IH]; intros s; simpl.
  - by rewrite push_nil.
  - erewrite bind_returned by apply emit_run.
    erewrite bind_returned by apply IH. by rewrite push_push.
Qed.

Lemma render_messages_run s :
  render_messages s = (Returned tt, push (redraw (transcript s)) s).
Proof. unfold render_messages. by erewrite bind_returned by apply for_each_emit. Qed.

Lemma rag_execution_logic_calls b selected_filter user_prompt s :
  ∃ o calls,
    rag_execution_logic b selected_filter user_prompt s = (o, push calls s) ∧
    Forall (λ ev, is_call ev = true) calls.
Proof.
  destruct (rag_execution_logic_trace b selected_filter user_prompt s)
    as (o & rest & Hrun & Hrest).
  exists o, (Retrieve (make_search_kwargs selected_filter) user_prompt :: rest).
  split; [done|].
  destruct Hrest as [->|[[ps ->]|(ps & ctx & ->)]]; repeat constructor.
Qed.

(** One turn, from the transcript's side: the question is appended and
    drawn, the pipeline makes its calls, and only a response that came back
    is drawn and appended. *)
Lemma chat_handler_run b selected_filter user_prompt s ms :
  messages s = Some ms →
  ∃ o calls,
    Forall (λ ev, is_call ev = true) calls ∧
    (rag_execution_logic b selected_filter user_prompt
       (push [StChatMarkdown "user" user_prompt]
          (set_messages (ms ++ [user_turn user_prompt]) s))).1 = o ∧
    chat_handler b selected_filter user_prompt s =
      match o with
      | Returned response =>
          (Returned tt,
           set_messages (ms ++ [user_turn user_prompt; assistant_turn response])
             (push (StChatMarkdown "user" user_prompt :: calls ++
                    [StChatMarkdown "assistant" response]) s))
      | Raised e =>
          (Raised e,
           set_messages (ms ++ [user_turn user_prompt])
             (push (StChatMarkdown "user" user_prompt :: calls) s))
      | Stopped =>
          (Stopped,
           set_messages (ms ++ [user_turn user_prompt])
             (push (StChatMarkdown "user" user_prompt :: calls) s))
      end.
Proof.
  intros Hms.
  set (s1 := push [StChatMarkdown "user" user_prompt]
               (set_messages (ms ++ [user_turn user_prompt]) s)).
  destruct (rag_execution_logic_calls b selected_filter user_prompt s1)
    as (o & calls & Hrun & Hcalls).
  exists o, calls. split; [done|]. split; [by rewrite Hrun|].
  unfold chat_handler.
  erewrite bind_returned by (by apply append_message_run).
  erewrite bind_returned by apply emit_run. fold (user_turn user_prompt). fold s1.
  destruct o as [response|e|].
  - erewrite bind_returned by exact Hrun.
    erewrite bind_returned by apply emit_run.
    erewrite append_message_run by done.
    unfold set_messages, push, s1. simpl. by rewrite <- !app_assoc.
  - erewrite bind_raised by exact Hrun.
    unfold set_messages, push, s1. simpl. by rewrite <- !app_assoc.
  - erewrite bind_stopped by exact Hrun.
    unfold set_messages, push, s1. simpl. by rewrite <- !app_assoc.
Qed.

Lemma chat_interface_run w b selected_filter s :
  chat_interface w b selected_filter s =
    match truthy (chat_input w) with
    | Some user_prompt =>
        chat_handler b selected_filter user_prompt
          (push (redraw (transcript s)) (set_messages (transcript s) s))
    | None => (Returned tt, push (redraw (transcript s)) (set_messages (transcript s) s))
    end.
Proof.
  unfold chat_interface.
  erewrite bind_returned by apply init_messages_run.
  erewrite bind_returned by apply render_messages_run.
  by destruct (truthy (chat_input w)).
Qed.

Lemma rag_execution_logic_fails b selected_filter user_prompt e s :
  backend_fails b selected_filter user_prompt e →
  (rag_execution_logic b selected_filter user_prompt s).1 = Raised e.
Proof.
  intros Hfail. unfold rag_execution_logic.
  destruct Hfail as [Hget|docs Hget Hne Hrank|docs passages Hget Hne Hrr Hllm].
  - by erewrite bind_raised by (by rewrite call_run, Hget).
  - erewrite bind_returned by (by rewrite call_run, Hget).
    destruct docs as [|d docs]; [done|].
    change (is_empty (d :: docs)) with false. cbv iota.
    erewrite bind_raised; [done|]. unfold rerank_docs.
    by erewrite bind_raised by (by rewrite call_run, Hrank).
  - erewrite bind_returned by (by rewrite call_run, Hget).
    destruct docs as [|d docs]; [done|].
    change (is_empty (d :: docs)) with false. cbv iota.
    erewrite bind_returned by (by apply rerank_docs_run).
    erewrite bind_returned by apply str_join_strings.
    by rewrite generate_answer_chain_run, Hllm.
Qed.

(** C9, as stated, fails: with the language model down, the exception
    leaves the chat interface uncaught and no assistant text is drawn. *)
Lemma failure_not_caught :
  backend_fails llm_down_backend (PStr "All") "What is value-based pricing?"
    (BackendError "openai") ∧
  (chat_interface llm_down_world llm_down_backend (PStr "All") ongoing_session).1 =
    Raised (BackendError "openai") ∧
  ¬ ends_with_assistant_text llm_down_world llm_down_backend (PStr "All")
      ongoing_session.
Proof.
  split; [|split].
  - apply (generation_fails _ _ _ _ [doc "bb"; doc "a"; doc "ccc"] ["ccc"; "bb"; "a"]).
    + reflexivity.
    + discriminate.
    + eexists. split; [reflexivity|]. vm_compute. reflexivity.
    + reflexivity.
  - vm_compute. reflexivity.
  - intros (text & s' & Hrun & _). apply (f_equal fst) in Hrun.
    vm_compute in Hrun. discriminate.
Qed.

(** C9, amended. A failure of the index, of the ranker or of the language
    model is not caught in the turn: the run ends with that exception, after
    the user's question nothing is drawn (the log goes on with outgoing
    calls only), no assistant entry is appended, and the transcript is the
    one before the turn, every entry in its place, followed by the user's
    question. *)
Theorem backend_failure_propagates
    (w : world) (b : backend) (selected_filter : pyval) (user_prompt : string)
    (e : exn) (s : session) :
  truthy (chat_input w) = Some user_prompt →
  backend_fails b selected_filter user_prompt e →
  ∃ calls,
    Forall (λ ev, is_call ev = true) calls ∧
    chat_interface w b selected_filter s =
      (Raised e,
       set_messages (transcript s ++ [user_turn user_prompt])
         (push (redraw (transcript s) ++
                StChatMarkdown "user" user_prompt :: calls) s)) ∧
    (∀ i m, transcript s !! i = Some m →
            transcript (chat_interface w b selected_filter s).2 !! i = Some m).
Proof.
  intros Hq Hfail. rewrite chat_interface_run, Hq.
  set (s0 := push (redraw (transcript s)) (set_messages (transcript s) s)).
  destruct (chat_handler_run b selected_filter user_prompt s0 (transcript s))
    as (o & calls & Hcalls & Ho & ->); [done|].
  rewrite (rag_execution_logic_fails _ _ _ e) in Ho by done. subst o.
  exists calls. split; [done|].
  assert (set_messages (transcript s ++ [user_turn user_prompt])
            (push (StChatMarkdown "user" user_prompt :: calls) s0) =
          set_messages (transcript s ++ [user_turn user_prompt])
            (push (redraw (transcript s) ++
                   StChatMarkdown "user" user_prompt :: calls) s)) as ->.
  { unfold set_messages, push, s0. simpl. by rewrite <- !app_assoc. }
  split; [done|]. intros i m Hi. unfold transcript at 1. simpl.
  by apply lookup_app_l_Some.
Qed.

Lemma backend_failure_propagates_witness :
  ∃ calls,
    Forall (λ ev, is_call ev = true) calls ∧
    chat_interface llm_down_world llm_down_backend (PStr "All") ongoing_session =
      (Raised (BackendError "openai"),
       set_messages
         (transcript ongoing_session ++ [user_turn "What is value-based pricing?"])
         (push (redraw (transcript ongoing_session) ++
                StChatMarkdown "user" "What is value-based pricing?" :: calls)
            ongoing_session)) ∧
    (∀ i m, transcript ongoing_session !! i = Some m →
            transcript (chat_interface llm_down_world llm_down_backend (PStr "All")
                          ongoing_session).2 !! i = Some m).
Proof.
  apply (backend_failure_propagates llm_down_world llm_down_backend (PStr "All")
           "What is value-based pricing?" (BackendError "openai") ongoing_session).
  - reflexivity.
  - apply (generation_fails _ _ _ _ [doc "bb"; doc "a"; doc "ccc"] ["ccc"; "bb"; "a"]).
    + reflexivity.
    + discriminate.
    + eexists. split; [reflexivity|]. vm_compute. reflexivity.
    + reflexivity.
Defined.

(** ** The log only grows *)

Create HintDb script_log.

Lemma extends_log_ret {A} (a : A) : extends_log (ret a).
Proof. intros s. exists []. simpl. by rewrite app_nil_r. Qed.

Lemma extends_log_raise {A} e : extends_log (@raise A e).
Proof. intros s. exists []. simpl. by rewrite app_nil_r. Qed.

Lemma extends_log_st_stop {A} : extends_log (@st_stop A).
Proof. intros s. exists []. simpl. by rewrite app_nil_r. Qed.

Lemma extends_log_lift {A} (r : result A) : extends_log (lift r).
Proof. destruct r; [apply extends_log_ret|apply extends_log_raise]. Qed.

Lemma extends_log_emit ev : extends_log (emit ev).
Proof. intros s. by exists [ev]. Qed.

Lemma extends_log_bind {A B} (m : script A) (f : A → script B) :
  extends_log m → (∀ a, extends_log (f a)) → extends_log (bind m f).
Proof.
  intros Hm Hf s. destruct (Hm s) as [evs1 H1]. unfold bind.
  destruct (m s) as [[a|e|] s1]; simpl in *; [|by eauto..].
  destruct (Hf a s1) as [evs2 H2]. exists (evs1 ++ evs2).
  by rewrite H2, H1, app_assoc.
Qed.

Lemma extends_log_try_except {A} (m : script A) h :
  extends_log m → (∀ e handler, h e = Some handler → extends_log handler) →
  extends_log (try_except m h).
Proof.
  intros Hm Hh s. destruct (Hm s) as [evs1 H1]. unfold try_except.
  destruct (m s) as [[a|e|] s1]; simpl in *; [by eauto| |by eauto].
  destruct (h e) as [handler|] eqn:He; [|by eauto].
  destruct (Hh e handler He s1) as [evs2 H2]. exists (evs1 ++ evs2).
  by rewrite H2, H1, app_assoc.
Qed.

#[global] Hint Resolve extends_log_ret extends_log_raise extends_log_st_stop
  extends_log_lift extends_log_emit extends_log_bind : script_log.

Lemma extends_log_call {A} ev (r : result A) : extends_log (call ev r).
Proof. unfold call. auto with script_log. Qed.

#[global] Hint Resolve extends_log_call : script_log.

Lemma extends_log_load_topics w : extends_log (load_topics w).
Proof.
  unfold load_topics. apply extends_log_try_except; [auto with script_log|].
  intros [] handler Hh; simplify_eq. auto with script_log.
Qed.

Lemma extends_log_sidebar w : extends_log (sidebar w).
Proof.
  unfold sidebar. apply extends_log_bind; [apply extends_log_load_topics|].
  auto with script_log.
Qed.

Lemma extends_log_chat_interface w b selected_filter :
  extends_log (chat_interface w b selected_filter).
Proof.
  intros s. rewrite chat_interface_run.
  destruct (truthy (chat_input w)) as [user_prompt|]; [|by eexists].
  set (s0 := push (redraw (transcript s)) (set_messages (transcript s) s)).
  destruct (chat_handler_run b selected_filter user_prompt s0 (transcript s))
    as (o & calls & _ & _ & ->); [done|].
  destruct o; simpl; rewrite <- app_assoc; by eexists.
Qed.

#[global] Hint Resolve extends_log_sidebar extends_log_chat_interface : script_log.

(** ** The topics file *)

Lemma load_topics_missing w s path :
  topics_json w = Err (FileNotFoundError path) →
  load_topics w s =
    (Returned (PList [PStr "All"]), push [StError topics_not_found_message None] s).
Proof. intros Hfile. unfold load_topics, try_except, bind. by rewrite Hfile. Qed.

Lemma load_topics_corrupt w s msg :
  topics_json w = Ok (Err (JSONDecodeError msg)) →
  load_topics w s = (Raised (JSONDecodeError msg), s).
Proof. intros Hfile. unfold load_topics, try_except, bind. by rewrite Hfile. Qed.

(** C7, as stated, fails: a [topics.json] that is there and is not JSON
    does not give the option list [["All"]]; the decoding error ends the
    run. *)
Lemma corrupt_topics_not_degraded :
  load_topics corrupt_topics_world fresh_session =
    (Raised (JSONDecodeError "Expecting value: line 1 column 1 (char 0)"),
     fresh_session) ∧
  ¬ degrades_to_All corrupt_topics_world fresh_session.
Proof.
  split; [reflexivity|]. intros [s' Hrun]. vm_compute in Hrun. discriminate.
Qed.

(** C7, amended. When [topics.json] is absent, loading reports it on the
    page, gives the single-option list [["All"]] and the run goes on: the
    dropdown is offered exactly [["All"]].  When the file is there and
    malformed, the decoding error is not caught: loading, and the sidebar
    with it, ends with that error. *)
Theorem load_topics_missing_or_corrupt (w : world) (s : session) :
  (∀ path, topics_json w = Err (FileNotFoundError path) →
     load_topics w s =
       (Returned (PList [PStr "All"]),
        push [StError topics_not_found_message None] s) ∧
     sidebar w s =
       (outcome_of (selectbox w (PList [PStr "All"])),
        push [StError topics_not_found_message None;
              StSelectbox (PList [PStr "All"])] s)) ∧
  (∀ msg, topics_json w = Ok (Err (JSONDecodeError msg)) →
     load_topics w s = (Raised (JSONDecodeError msg), s) ∧
     sidebar w s = (Raised (JSONDecodeError msg), s)).
Proof.
  split.
  - intros path Hfile. split; [by eapply load_topics_missing|].
    unfold sidebar. erewrite bind_returned by (by eapply load_topics_missing).
    by rewrite call_run, push_push.
  - intros msg Hfile. split; [by apply load_topics_corrupt|].
    unfold sidebar. by erewrite bind_raised by (by apply load_topics_corrupt).
Qed.

Lemma load_topics_missing_or_corrupt_witness :
  load_topics no_topics_world fresh_session =
    (Returned (PList [PStr "All"]),
     push [StError topics_not_found_message None] fresh_session) ∧
  sidebar no_topics_world fresh_session =
    (Returned (PStr "All"),
     push [StError topics_not_found_message None;
           StSelectbox (PList [PStr "All"])] fresh_session).
Proof.
  apply (proj1 (load_topics_missing_or_corrupt no_topics_world fresh_session)
           "topics.json").
  reflexivity.
Defined.

(** ** Secrets and startup *)

Lemma string_app_assoc (s1 s2 s3 : string) :
  (s1 +:+ s2) +:+ s3 = s1 +:+ (s2 +:+ s3).
Proof.
  induction s1 as [|c s1 IH]; [done|].
  change (String c ((s1 +:+ s2) +:+ s3) = String c (s1 +:+ (s2 +:+ s3))).
  by rewrite IH.
Qed.

Lemma has_char_app n (s1 s2 : string) :
  has_char n (s1 +:+ s2) = has_char n s1 || has_char n s2.
Proof.
  induction s1 as [|c s1 IH]; [done|].
  change (has_char n (String c (s1 +:+ s2)) =
          has_char n (String c s1) || has_char n s2).
  simpl. by rewrite IH, orb_assoc.
Qed.

Lemma escape_string_app quote (s1 s2 : string) :
  escape_string quote (s1 +:+ s2) =
    escape_string quote s1 +:+ escape_string quote s2.
Proof.
  induction s1 as [|c s1 IH]; [done|].
  change (escape_string quote (String c (s1 +:+ s2)) =
          escape_string quote (String c s1) +:+ escape_string quote s2).
  simpl. by rewrite IH, string_app_assoc.
Qed.

(** The sentence of Streamlit holds a double quote, so that its [repr] is
    between single quotes, the double quotes as they are. *)
Lemma py_repr_missing_key advice key :
  py_repr (streamlit_missing_key advice key) =
    squote +:+ "st.secrets has no key " +:+ dquote +:+ escape_string 39 key +:+
    dquote +:+ escape_string 39 advice +:+ squote.
Proof.
  unfold py_repr, streamlit_missing_key.
  assert (has_char 34 ("st.secrets has no key " +:+ dquote +:+ key +:+ dquote +:+
                       advice) = true) as ->.
  { rewrite !has_char_app. change (has_char 34 dquote) with true.
    by rewrite orb_true_r. }
  rewrite andb_false_r. rewrite !escape_string_app.
  change (escape_string 39 "st.secrets has no key ") with "st.secrets has no key ".
  change (escape_string 39 dquote) with dquote.
  change (String (Ascii.ascii_of_nat 39) ?x) with (squote +:+ x).
  by rewrite !string_app_assoc.
Qed.

Lemma required_key_unescaped key :
  key = "OPENAI_API_KEY" ∨ key = "PINECONE_API_KEY" → escape_string 39 key = key.
Proof. by intros [-> | ->]. Qed.

Lemma missing_secret_message_names advice key :
  key = "OPENAI_API_KEY" ∨ key = "PINECONE_API_KEY" →
  occurs_in key (py_repr (streamlit_missing_key advice key)).
Proof.
  intros Hkey. rewrite py_repr_missing_key, required_key_unescaped by done.
  exists (squote +:+ "st.secrets has no key " +:+ dquote),
         (dquote +:+ escape_string 39 advice +:+ squote).
  by rewrite !string_app_assoc.
Qed.

(** Loading the secrets, case by case. *)
Lemma load_secrets_cases w s :
  load_secrets w s =
    match secrets_toml w with
    | Err (KeyError arg) =>
        (Stopped, push [StError (missing_secret_message arg) (Some siren)] s)
    | Err e => (Raised e, s)
    | Ok entries =>
        match entries !! "OPENAI_API_KEY", entries !! "PINECONE_API_KEY" with
        | None, _ =>
            (Stopped,
             push [StError
                     (missing_secret_message
                        (streamlit_missing_key (secrets_advice w) "OPENAI_API_KEY"))
                     (Some siren)] s)
        | Some _, None =>
            (Stopped,
             push [StError
                     (missing_secret_message
                        (streamlit_missing_key (secrets_advice w) "PINECONE_API_KEY"))
                     (Some siren)] s)
        | Some v1, Some v2 =>
            (Returned
               (v1, v2, default default_index_name (entries !! "PINECONE_INDEX_NAME")),
             s)
        end
    end.
Proof.
  unfold load_secrets, secrets_get, secrets_getitem, try_except, bind.
  destruct (secrets_toml w) as [entries|[]]; try done.
  destruct (entries !! "OPENAI_API_KEY"); [|done].
  destruct (entries !! "PINECONE_API_KEY"); [|done].
  by destruct (entries !! "PINECONE_INDEX_NAME").
Qed.

Lemma secrets_lookup_Some w key v :
  secrets w !! key = Some v →
  ∃ entries, secrets_toml w = Ok entries ∧ entries !! key = Some v.
Proof. unfold secrets. destruct (secrets_toml w); [eauto|done]. Qed.

Lemma load_secrets_both w s v1 v2 :
  secrets w !! "OPENAI_API_KEY" = Some v1 →
  secrets w !! "PINECONE_API_KEY" = Some v2 →
  load_secrets w s =
    (Returned (v1, v2, default default_index_name (secrets w !! "PINECONE_INDEX_NAME")), s).
Proof.
  intros (entries & Htoml & Hkey1)%secrets_lookup_Some Hkey2.
  rewrite load_secrets_cases. unfold secrets in *. rewrite Htoml in *.
  by rewrite Hkey1, Hkey2.
Qed.

(** Without one of the two API keys the loading does not return. *)
Lemma load_secrets_not_returned w s loaded s' :
  secrets w !! "OPENAI_API_KEY" = None ∨ secrets w !! "PINECONE_API_KEY" = None →
  load_secrets w s ≠ (Returned loaded, s').
Proof.
  intros Hmissing. rewrite load_secrets_cases. unfold secrets in Hmissing.
  destruct (secrets_toml w) as [entries|[]]; try done.
  destruct (entries !! "OPENAI_API_KEY"), (entries !! "PINECONE_API_KEY");
    try done. by destruct Hmissing.
Qed.

(** C8, as stated, fails: with no secrets file at all every required key
    is absent, and the run draws no message: reading [st.secrets] raises a
    [FileNotFoundError], which [except KeyError] does not catch. *)
Lemma no_secrets_file_no_message :
  secrets no_secrets_file_world !! "OPENAI_API_KEY" = None ∧
  app no_secrets_file_world fresh_session =
    (Raised (FileNotFoundError "secrets.toml"), fresh_session) ∧
  ¬ names_missing_key no_secrets_file_world fresh_session "OPENAI_API_KEY".
Proof.
  split; [reflexivity|]. split; [reflexivity|].
  intros (body & icon & Hin & _). vm_compute in Hin. by apply elem_of_nil in Hin.
Qed.

(** C8, amended. When the secrets can be read and [OPENAI_API_KEY] or
    [PINECONE_API_KEY] is not among them, the run is halted by [st.stop()]
    right after one error message is drawn; the message is the sentence of
    line 25 around the [repr] of Streamlit's own sentence about the key,
    and so holds the name of the first of the two keys that is absent;
    nothing else happens in the run: the backend is not initialised and
    nothing is cached.  When the secrets cannot be read at all (no secrets
    file), the exception, not a [KeyError], is not caught: the run ends
    with it, without a message and without [st.stop()], the backend not
    initialised either. *)
Theorem missing_secret_aborts (w : world) (s : session) :
  (∀ entries,
     secrets_toml w = Ok entries →
     entries !! "OPENAI_API_KEY" = None ∨ entries !! "PINECONE_API_KEY" = None →
     ∃ key,
       (key = "OPENAI_API_KEY" ∨ key = "PINECONE_API_KEY") ∧
       entries !! key = None ∧
       app w s =
         (Stopped,
          push [StError
                  (siren +:+ " Missing Secret: Please set " +:+
                   py_repr ("st.secrets has no key " +:+ dquote +:+ key +:+
                            dquote +:+ secrets_advice w) +:+
                   " in your Streamlit Cloud app settings.")
                  (Some siren)] s) ∧
       occurs_in key
         (py_repr ("st.secrets has no key " +:+ dquote +:+ key +:+ dquote +:+
                   secrets_advice w)) ∧
       filter (λ ev, is_init ev = true) (log (app w s).2) =
         filter (λ ev, is_init ev = true) (log s) ∧
       cached_backend (app w s).2 = cached_backend s) ∧
  (∀ e,
     secrets_toml w = Err e →
     (∀ arg, e ≠ KeyError arg) →
     app w s = (Raised e, s)).
Proof.
  split.
  - intros entries Htoml Hmissing.
    assert (∃ key, (key = "OPENAI_API_KEY" ∨ key = "PINECONE_API_KEY") ∧
                   entries !! key = None ∧
                   load_secrets w s =
                     (Stopped,
                      push [StError
                              (missing_secret_message
                                 (streamlit_missing_key (secrets_advice w) key))
                              (Some siren)] s))
      as (key & Hkey & Hnone & Hload).
    { rewrite load_secrets_cases, Htoml.
      destruct (entries !! "OPENAI_API_KEY") as [v|] eqn:Hopenai.
      - destruct Hmissing as [?|Hpinecone]; [done|].
        exists "PINECONE_API_KEY". by rewrite Hpinecone; eauto.
      - exists "OPENAI_API_KEY". eauto. }
    exists key. split; [done|]. split; [done|].
    assert (app w s =
              (Stopped,
               push [StError
                       (missing_secret_message
                          (streamlit_missing_key (secrets_advice w) key))
                       (Some siren)] s)) as ->.
    { unfold app. by erewrite bind_stopped by exact Hload. }
    split; [done|]. split; [by apply missing_secret_message_names|].
    split; [|done]. simpl. rewrite filter_app. simpl. by rewrite app_nil_r.
  - intros e Htoml Hclass. unfold app. erewrite bind_raised; [done|].
    rewrite load_secrets_cases, Htoml. destruct e; try done.
    by destruct (Hclass key).
Qed.

Lemma missing_secret_aborts_witness :
  ∃ key,
    (key = "OPENAI_API_KEY" ∨ key = "PINECONE_API_KEY") ∧
    ({[ "OPENAI_API_KEY" := "sk-test" ]} : gmap string string) !! key = None ∧
    app no_pinecone_key_world fresh_session =
      (Stopped,
       push [StError
               (siren +:+ " Missing Secret: Please set " +:+
                py_repr ("st.secrets has no key " +:+ dquote +:+ key +:+
                         dquote +:+ secrets_advice no_pinecone_key_world) +:+
                " in your Streamlit Cloud app settings.")
               (Some siren)] fresh_session) ∧
    occurs_in key
      (py_repr ("st.secrets has no key " +:+ dquote +:+ key +:+ dquote +:+
                secrets_advice no_pinecone_key_world)) ∧
    filter (λ ev, is_init ev = true) (log (app no_pinecone_key_world fresh_session).2) =
      filter (λ ev, is_init ev = true) (log fresh_session) ∧
    cached_backend (app no_pinecone_key_world fresh_session).2 =
      cached_backend fresh_session.
Proof.
  apply (proj1 (missing_secret_aborts no_pinecone_key_world fresh_session)
           {[ "OPENAI_API_KEY" := "sk-test" ]}).
  - reflexivity.
  - right. reflexivity.
Defined.

(** The text drawn when the Pinecone key is not set, for the sentence of a
    recent Streamlit. *)
Example missing_secret_message_pinecone :
  app no_pinecone_key_world fresh_session =
    (Stopped,
     push [StError
             (siren +:+
              " Missing Secret: Please set 'st.secrets has no key " +:+ dquote +:+
              "PINECONE_API_KEY" +:+ dquote +:+
              ". Did you forget to add it to secrets.toml, mount it to secret directory, or the app settings on Streamlit Cloud? More info: https://docs.streamlit.io/deploy/streamlit-community-cloud/deploy-your-app/secrets-management' in your Streamlit Cloud app settings.")
             (Some siren)] fresh_session).
Proof. vm_compute. reflexivity. Qed.

Example py_repr_quotes :
  py_repr "text" = "'text'" ∧
  py_repr "it's" = dquote +:+ "it's" +:+ dquote ∧
  py_repr ("a" +:+ nl +:+ "b") = "'a" +:+ backslash +:+ "nb'".
Proof. vm_compute. done. Qed.

Lemma initialize_backend_components_first w openai_api_key index_name s :
  cached_backend s = None →
  ∃ o s', initialize_backend_components w openai_api_key index_name s = (o, s') ∧
          log s' = log s ++ [InitBackend openai_api_key index_name].
Proof.
  intros Hcache. unfold initialize_backend_components. rewrite Hcache.
  destruct (connect w openai_api_key index_name) as [b|e] eqn:Hconnect.
  - erewrite bind_returned by (by rewrite call_run). by eexists _, _.
  - erewrite bind_raised by (by rewrite call_run). by eexists _, _.
Qed.

(** C10. With both API keys in the secret store and no
    [PINECONE_INDEX_NAME], loading the secrets draws nothing and gives the
    two keys and the index name ["eller-executive-edu-ak-final"]; the run
    goes on to the backend, which, when it is not cached yet, is created
    for that index name.  The loading goes through exactly when the two
    API keys are there, whatever else the store holds. *)
Theorem index_name_defaults (w : world) (s : session) (v1 v2 : string) :
  secrets w !! "OPENAI_API_KEY" = Some v1 →
  secrets w !! "PINECONE_API_KEY" = Some v2 →
  secrets w !! "PINECONE_INDEX_NAME" = None →
  load_secrets w s = (Returned (v1, v2, "eller-executive-edu-ak-final"), s) ∧
  (cached_backend s = None →
   ∃ evs, log (app w s).2 =
            log s ++ InitBackend v1 "eller-executive-edu-ak-final" :: evs) ∧
  (∀ w' s',
     (∃ loaded, load_secrets w' s' = (Returned loaded, s')) ↔
     is_Some (secrets w' !! "OPENAI_API_KEY") ∧
     is_Some (secrets w' !! "PINECONE_API_KEY")).
Proof.
  intros Hkey1 Hkey2 Hindex.
  assert (load_secrets w s = (Returned (v1, v2, default_index_name), s)) as Hload.
  { rewrite (load_secrets_both w s v1 v2) by done. by rewrite Hindex. }
  split; [done|]. split.
  - intros Hcache. unfold app. erewrite bind_returned by exact Hload.
    destruct (initialize_backend_components_first w v1 default_index_name s Hcache)
      as ([b|e|] & s1 & Hinit & Hlog).
    + erewrite bind_returned by exact Hinit.
      assert (extends_log
                (bind (sidebar w) (λ selected_filter,
                   chat_interface w b selected_filter))) as Hrest
        by auto with script_log.
      destruct (Hrest s1) as [evs Hevs]. exists evs.
      by rewrite Hevs, Hlog, <- app_assoc.
    + erewrite bind_raised by exact Hinit. exists []. simpl. by rewrite Hlog.
    + erewrite bind_stopped by exact Hinit. exists []. simpl. by rewrite Hlog.
  - intros w' s'. split.
    + intros [loaded Hrun].
      destruct (secrets w' !! "OPENAI_API_KEY") as [k1|] eqn:H1.
      * destruct (secrets w' !! "PINECONE_API_KEY") as [k2|] eqn:H2; [by eauto|].
        by apply load_secrets_not_returned in Hrun; [|right].
      * by apply load_secrets_not_returned in Hrun; [|left].
    + intros [[k1 H1] [k2 H2]]. eexists. by apply load_secrets_both.
Qed.

Lemma index_name_defaults_witness :
  load_secrets demo_world fresh_session =
    (Returned ("sk-test", "pc-test", "eller-executive-edu-ak-final"), fresh_session) ∧
  (cached_backend fresh_session = None →
   ∃ evs, log (app demo_world fresh_session).2 =
            log fresh_session ++
            InitBackend "sk-test" "eller-executive-edu-ak-final" :: evs) ∧
  (∀ w' s',
     (∃ loaded, load_secrets w' s' = (Returned loaded, s')) ↔
     is_Some (secrets w' !! "OPENAI_API_KEY") ∧
     is_Some (secrets w' !! "PINECONE_API_KEY")).
Proof.
  apply (index_name_defaults demo_world fresh_session "sk-test" "pc-test");
    reflexivity.
Defined.

(** A whole run of the script on a fresh session: the backend is created,
    the dropdown is offered the topics of the file, ["Finance"] is
    selected, and the question goes through the filtered retrieval, the
    ranker and the generation chain. *)
Example app_demo :
  (app demo_world fresh_session).1 = Returned tt ∧
  transcript (app demo_world fresh_session).2 =
    [user_turn "What is value-based pricing?"; assistant_turn "An answer."] ∧
  log (app demo_world fresh_session).2 =
    [InitBackend "sk-test" "eller-executive-edu-ak-final";
     StSelectbox (PList [PStr "All"; PStr "Finance"]);
     StChatMarkdown "user" "What is value-based pricing?";
     Retrieve (make_search_kwargs (PStr "Finance")) "What is value-based pricing?";
     Rerank "What is value-based pricing?" ["bb"; "a"; "ccc"];
     Generate "What is value-based pricing?" (join sep ["ccc"; "bb"; "a"]);
     StChatMarkdown "assistant" "An answer."].
Proof. vm_compute. done. Qed.

(** * Further properties *)

(** ** Scripts that do not look at the session *)

Lemma stateless_ret {A} P (a : A) : stateless P (ret a).
Proof. exists (Returned a), []. split; [done|]. intros s. by rewrite push_nil. Qed.

Lemma stateless_raise {A} P e : stateless P (@raise A e).
Proof. exists (Raised e), []. split; [done|]. intros s. by rewrite push_nil. Qed.

Lemma stateless_st_stop {A} P : stateless P (@st_stop A).
Proof. exists Stopped, []. split; [done|]. intros s. by rewrite push_nil. Qed.

Lemma stateless_lift {A} P (r : result A) : stateless P (lift r).
Proof. destruct r; [apply stateless_ret|apply stateless_raise]. Qed.

Lemma stateless_emit (P : event → bool) ev : P ev = true → stateless P (emit ev).
Proof. intros HP. exists (Returned tt), [ev]. split; [by constructor|done]. Qed.

Lemma stateless_bind {A B} P (m : script A) (f : A → script B) :
  stateless P m → (∀ a, stateless P (f a)) → stateless P (bind m f).
Proof.
  intros (o & evs & HP & Hm) Hf. destruct o as [a|e|].
  - destruct (Hf a) as (o2 & evs2 & HP2 & Hfa). exists o2, (evs ++ evs2).
    split; [by apply Forall_app|]. intros s.
    erewrite bind_returned by apply Hm. by rewrite Hfa, push_push.
  - exists (Raised e), evs. split; [done|]. intros s.
    by erewrite bind_raised by apply Hm.
  - exists Stopped, evs. split; [done|]. intros s.
    by erewrite bind_stopped by apply Hm.
Qed.

Lemma stateless_try_except {A} P (m : script A) h :
  stateless P m → (∀ e handler, h e = Some handler → stateless P handler) →
  stateless P (try_except m h).
Proof.
  intros (o & evs & HP & Hm) Hh. unfold try_except.
  destruct o as [a|e|].
  - exists (Returned a), evs. split; [done|]. intros s. by rewrite Hm.
  - destruct (h e) as [handler|] eqn:He.
    + destruct (Hh e handler He) as (o2 & evs2 & HP2 & Hhandler).
      exists o2, (evs ++ evs2). split; [by apply Forall_app|]. intros s.
      by rewrite Hm, He, Hhandler, push_push.
    + exists (Raised e), evs. split; [done|]. intros s. by rewrite Hm, He.
  - exists Stopped, evs. split; [done|]. intros s. by rewrite Hm.
Qed.

Lemma stateless_call {A} (P : event → bool) ev (r : result A) :
  P ev = true → stateless P (call ev r).
Proof.
  intros HP. unfold call.
  apply stateless_bind; [by apply stateless_emit|]. intros _. apply stateless_lift.
Qed.

Lemma stateless_load_secrets w : stateless no_init (load_secrets w).
Proof.
  destruct (secrets_toml w) as [entries|e] eqn:Htoml.
  - destruct (entries !! "OPENAI_API_KEY") as [v1|] eqn:Hkey1;
      [destruct (entries !! "PINECONE_API_KEY") as [v2|] eqn:Hkey2|].
    + eexists _, []. split; [done|]. intros s.
      by rewrite load_secrets_cases, Htoml, Hkey1, Hkey2, push_nil.
    + eexists _, [_]. split; [|intros s;
        by rewrite load_secrets_cases, Htoml, Hkey1, Hkey2].
      by repeat constructor.
    + eexists _, [_]. split; [|intros s;
        by rewrite load_secrets_cases, Htoml, Hkey1].
      by repeat constructor.
  - destruct e;
      try (eexists _, []; split; [done|]; intros s;
           by rewrite load_secrets_cases, Htoml, push_nil).
    eexists _, [_]. split; [|intros s; by rewrite load_secrets_cases, Htoml].
    by repeat constructor.
Qed.

Lemma stateless_load_topics w : stateless no_init (load_topics w).
Proof.
  unfold load_topics. apply stateless_try_except.
  - apply stateless_bind; [apply stateless_lift|]. intros ?. apply stateless_lift.
  - intros [] handler Hh; simplify_eq.
    apply stateless_bind; [by apply stateless_emit|]. intros _. apply stateless_ret.
Qed.

Lemma stateless_sidebar w : stateless no_init (sidebar w).
Proof.
  unfold sidebar. apply stateless_bind; [apply stateless_load_topics|].
  intros ?. by apply stateless_call.
Qed.

(** ** The cases of the pipeline *)

Lemma texts_dichotomy (results : list (gmap string pyval)) :
  (∃ values, text_of <$> results = Some <$> values) ∨
  (∃ r, r ∈ results ∧ text_of r = None).
Proof.
  induction results as [|r results [[values IH]|(r' & Hin & Hnone)]].
  - left. by exists [].
  - destruct (text_of r) as [v|] eqn:Hr.
    + left. exists (v :: values). by rewrite !fmap_cons, Hr, IH.
    + right. exists r. split; [constructor|done].
  - right. exists r'. split; [by constructor|done].
Qed.

Lemma for_each_text_missing results s :
  (∃ r, r ∈ results ∧ text_of r = None) →
  for_each (λ result, dict_getitem result "text") results s =
    (Raised (KeyError "text"), s).
Proof.
  induction results as [|r0 results IH]; intros (r & Hin & Hnone).
  - by apply elem_of_nil in Hin.
  - simpl. destruct (text_of r0) as [v|] eqn:Hr0.
    + erewrite bind_returned
        by (unfold dict_getitem; unfold text_of in Hr0; by rewrite Hr0).
      erewrite bind_raised; [done|]. apply IH.
      apply elem_of_cons in Hin as [->|Hin]; [congruence|eauto].
    + by erewrite bind_raised
        by (unfold dict_getitem; unfold text_of in Hr0; by rewrite Hr0).
Qed.

Lemma str_items_Ok i values strs :
  str_items i values = Ok strs → values = PStr <$> strs.
Proof.
  revert i strs. induction values as [|v values IH]; intros i strs; simpl.
  - by intros [= <-].
  - destruct v; try done.
    destruct (str_items (S i) values) as [strs'|e] eqn:Hrest; [|done].
    intros [= <-]. by rewrite (IH _ _ Hrest).
Qed.

(** The first item that is not a string decides the [TypeError]: its index
    and its type are in the message. *)
Lemma str_items_first_bad i strs v rest :
  as_str v = None →
  str_items i ((PStr <$> strs) ++ v :: rest) =
    Err (TypeError ("sequence item " +:+ pretty (i + length strs) +:+
                    ": expected str instance, " +:+ type_name v +:+ " found")).
Proof.
  revert i. induction strs as [|str strs IH]; intros i Hv.
  - rewrite Nat.add_0_r. by destruct v.
  - rewrite fmap_cons. simpl. rewrite IH by done.
    by replace (S i + length strs) with (i + S (length strs)) by lia.
Qed.

Lemma str_join_not_str values e s :
  str_items 0 values = Err e → str_join sep values s = (Raised e, s).
Proof. unfold str_join. by intros ->. Qed.

(** Every turn falls under one of the six cases, whatever the session. *)
Lemma rag_execution_logic_cases b selected_filter user_prompt :
  ∃ o calls,
    rag_case b selected_filter user_prompt o calls ∧
    ∀ s, rag_execution_logic b selected_filter user_prompt s = (o, push calls s).
Proof.
  unfold rag_execution_logic.
  set (kw := make_search_kwargs selected_filter).
  destruct (get_relevant_documents b kw user_prompt) as [docs|e] eqn:Hget.
  2:{ eexists _, _. split; [by apply case_retrieval_error|]. intros s.
      by erewrite bind_raised by (by rewrite call_run). }
  destruct docs as [|d docs].
  { eexists _, _. split; [by apply case_no_results|]. intros s.
    by erewrite bind_returned by (by rewrite call_run). }
  set (ds := d :: docs) in *. assert (ds ≠ []) as Hne by done.
  destruct (ranker_rerank b user_prompt (page_content <$> ds))
    as [results|e] eqn:Hrank.
  2:{ eexists _, _. split; [by eapply case_ranker_error|]. intros s.
      erewrite bind_returned by (by rewrite call_run).
      change (is_empty ds) with false. cbv iota.
      erewrite bind_raised; last first.
      { unfold rerank_docs.
        by erewrite bind_raised by (by rewrite call_run, Hrank). }
      by rewrite push_push. }
  destruct (texts_dichotomy (take 5 results)) as [[values Htexts]|Hmissing].
  2:{ eexists _, _. split; [by eapply case_text_missing|]. intros s.
      erewrite bind_returned by (by rewrite call_run).
      change (is_empty ds) with false. cbv iota.
      erewrite bind_raised; last first.
      { unfold rerank_docs.
        erewrite bind_returned by (by rewrite call_run, Hrank).
        by apply for_each_text_missing. }
      by rewrite push_push. }
  assert (∀ s, rerank_docs b user_prompt ds s =
               (Returned values, push [Rerank user_prompt (page_content <$> ds)] s))
    as Hrr.
  { intros s. unfold rerank_docs.
    erewrite bind_returned by (by rewrite call_run, Hrank).
    by apply for_each_text. }
  destruct (str_items 0 values) as [strs|e] eqn:Hstrs.
  - apply str_items_Ok in Hstrs as ->.
    assert (reranks_to b user_prompt ds strs) as Hto.
    { exists results. split; [done|]. by rewrite Htexts, list_fmap_compose. }
    eexists _, _. split; [by eapply case_generate|]. intros s.
    erewrite bind_returned by (by rewrite call_run).
    change (is_empty ds) with false. cbv iota.
    erewrite bind_returned by apply Hrr.
    erewrite bind_returned by apply str_join_strings.
    by rewrite generate_answer_chain_run, !push_push.
  - eexists _, _. split; [by eapply case_text_not_str|]. intros s.
    erewrite bind_returned by (by rewrite call_run).
    change (is_empty ds) with false. cbv iota.
    erewrite bind_returned by apply Hrr.
    erewrite bind_raised by (by apply str_join_not_str).
    by rewrite push_push.
Qed.

(** X1. The block that computes the response never reads the session: for
    a given backend, selected topic and question, its outcome and the calls
    it makes are the same whatever the transcript, the cache and the log so
    far, and all it does to the session is to log those calls. *)
Theorem pipeline_is_stateless
    (b : backend) (selected_filter : pyval) (user_prompt : string) :
  ∃ o calls,
    Forall (λ ev, is_call ev = true) calls ∧
    ∀ s, rag_execution_logic b selected_filter user_prompt s = (o, push calls s).
Proof.
  destruct (rag_execution_logic_cases b selected_filter user_prompt)
    as (o & calls & Hcase & Hrun).
  exists o, calls. split; [|done]. destruct Hcase; repeat constructor.
Qed.

(** X2. The generation chain is called only in a turn whose retrieval
    returned at least one chunk and whose reranking gave strings: a
    [Generate] call among the calls of a turn carries the user's question
    unchanged and, as context, at most five reranked passages joined by the
    separator, and the outcome of the turn is then the outcome of the
    language model on the prompt built from them. *)
Theorem generation_only_after_rerank
    (b : backend) (selected_filter : pyval) (user_prompt : string) (s : session)
    (o : outcome string) (calls : list event) (question context : string) :
  rag_execution_logic b selected_filter user_prompt s = (o, push calls s) →
  Generate question context ∈ calls →
  question = user_prompt ∧
  ∃ docs passages,
    get_relevant_documents b (make_search_kwargs selected_filter) user_prompt = Ok docs ∧
    docs ≠ [] ∧
    reranks_to b user_prompt docs passages ∧
    (length passages ≤ 5)%nat ∧
    context = join sep passages ∧
    o = outcome_of (llm_invoke b (qa_template context user_prompt)).
Proof.
  intros Hrun Hin.
  destruct (rag_execution_logic_cases b selected_filter user_prompt)
    as (o' & calls' & Hcase & Hrun').
  rewrite Hrun' in Hrun. injection Hrun as -> Hpush.
  apply app_inv_head in Hpush as ->.
  apply list_elem_of_In in Hin.
  destruct Hcase as [e ?| |docs e ? ? ?|docs results ? ? ? ?
                     |docs results values ? ? ? ? ?|docs passages Hget Hne Hto];
    simpl in Hin; try (by intuition discriminate).
  destruct Hin as [?|[?|[Heq|[]]]]; try discriminate. injection Heq as <- <-.
  split; [done|]. exists docs, passages. repeat split; try done.
  destruct Hto as (results & _ & Htexts).
  apply (f_equal length) in Htexts. rewrite !length_fmap, length_take in Htexts.
  lia.
Qed.

Lemma generation_only_after_rerank_witness :
  "q" = "q" ∧
  ∃ docs passages,
    get_relevant_documents demo_backend (make_search_kwargs (PStr "All")) "q" =
      Ok docs ∧
    docs ≠ [] ∧
    reranks_to demo_backend "q" docs passages ∧
    (length passages ≤ 5)%nat ∧
    join sep ["ccc"; "bb"; "a"] = join sep passages ∧
    Returned "An answer." =
      outcome_of (llm_invoke demo_backend
                    (qa_template (join sep ["ccc"; "bb"; "a"]) "q")).
Proof.
  apply (generation_only_after_rerank demo_backend (PStr "All") "q" fresh_session
           (Returned "An answer.")
           [Retrieve (make_search_kwargs (PStr "All")) "q";
            Rerank "q" ["bb"; "a"; "ccc"];
            Generate "q" (join sep ["ccc"; "bb"; "a"])]).
  - vm_compute. reflexivity.
  - apply list_elem_of_In. simpl. auto.
Defined.

(** X3. When one of the first five results of the ranker has no ["text"]
    entry, [rerank_docs] raises [KeyError('text')] after the ranker was
    called, and returns nothing. *)
Theorem rerank_docs_missing_text
    (b : backend) (query : string) (docs : list document)
    (results : list (gmap string pyval)) (s : session) :
  ranker_rerank b query (page_content <$> docs) = Ok results →
  (∃ r, r ∈ take 5 results ∧ r !! "text" = None) →
  rerank_docs b query docs s =
    (Raised (KeyError "text"), push [Rerank query (page_content <$> docs)] s).
Proof.
  intros Hrank Hmissing. unfold rerank_docs.
  erewrite bind_returned by (by rewrite call_run, Hrank).
  by apply for_each_text_missing.
Qed.

Lemma rerank_docs_missing_text_witness :
  rerank_docs missing_text_backend "q" [doc "bb"; doc "a"] fresh_session =
    (Raised (KeyError "text"), push [Rerank "q" ["bb"; "a"]] fresh_session).
Proof.
  apply (rerank_docs_missing_text missing_text_backend "q" [doc "bb"; doc "a"]
           [ {[ "text" := PStr "bb" ]}; {[ "id" := PInt 1 ]} ] fresh_session).
  - reflexivity.
  - exists {[ "id" := PInt 1 ]}. split; [|reflexivity].
    apply list_elem_of_In. simpl. auto.
Defined.

(** X4. When the first five results all have a ["text"] entry and one of
    these entries is not a string, joining the passages raises the
    [TypeError] of [str.join], whose message gives the index of the first
    such entry and the name of its type: the turn ends with it after the
    retrieval and the ranker were called, and the generation chain is not
    called. *)
Theorem non_string_text_stops_turn
    (b : backend) (selected_filter : pyval) (user_prompt : string) (s : session)
    (docs : list document) (results : list (gmap string pyval))
    (strs : list string) (v : pyval) (rest : list pyval) :
  get_relevant_documents b (make_search_kwargs selected_filter) user_prompt = Ok docs →
  docs ≠ [] →
  ranker_rerank b user_prompt (page_content <$> docs) = Ok results →
  text_of <$> take 5 results = Some <$> ((PStr <$> strs) ++ v :: rest) →
  as_str v = None →
  rag_execution_logic b selected_filter user_prompt s =
    (Raised (TypeError ("sequence item " +:+ pretty (length strs) +:+
                        ": expected str instance, " +:+ type_name v +:+ " found")),
     push [Retrieve (make_search_kwargs selected_filter) user_prompt;
           Rerank user_prompt (page_content <$> docs)] s).
Proof.
  intros Hget Hne Hrank Htexts Hv.
  unfold rag_execution_logic.
  erewrite bind_returned by (by rewrite call_run, Hget).
  destruct docs as [|d docs]; [done|].
  change (is_empty (d :: docs)) with false. cbv iota.
  erewrite bind_returned; last first.
  { unfold rerank_docs. erewrite bind_returned by (by rewrite call_run, Hrank).
    by apply for_each_text. }
  erewrite bind_raised; last first.
  { apply str_join_not_str. by rewrite (str_items_first_bad 0). }
  by rewrite push_push.
Qed.

Lemma non_string_text_stops_turn_witness :
  rag_execution_logic int_text_backend (PStr "All") "q" fresh_session =
    (Raised (TypeError "sequence item 1: expected str instance, int found"),
     push [Retrieve (make_search_kwargs (PStr "All")) "q";
           Rerank "q" (page_content <$> [doc "bb"; doc "a"])] fresh_session).
Proof.
  apply (non_string_text_stops_turn int_text_backend (PStr "All") "q" fresh_session
           [doc "bb"; doc "a"]
           [ {[ "text" := PStr "bb" ]}; {[ "text" := PInt 7 ]} ]
           ["bb"] (PInt 7) []).
  - reflexivity.
  - discriminate.
  - reflexivity.
  - vm_compute. reflexivity.
  - reflexivity.
Defined.

(** ** Whole runs and whole sessions *)

Lemma is_call_no_init ev : is_call ev = true → no_init ev = true.
Proof. by destruct ev. Qed.

Lemma redraw_no_init ms : Forall (λ ev, no_init ev = true) (redraw ms).
Proof. unfold redraw. apply Forall_fmap, Forall_true. done. Qed.

Lemma filter_is_init_no_init evs :
  Forall (λ ev, no_init ev = true) evs →
  filter (λ ev, is_init ev = true) evs = [].
Proof.
  induction 1 as [|ev evs Hev _ IH]; [done|].
  rewrite filter_cons_False; [done|]. unfold no_init in Hev.
  by destruct (is_init ev).
Qed.

Lemma advances_push P evs s :
  Forall (λ ev, P ev = true) evs → advances P s (push evs s).
Proof.
  intros HP. exists [], evs. rewrite app_nil_r.
  repeat split; [|done]. by left.
Qed.

Lemma chat_interface_advances w b selected_filter s :
  advances no_init s (chat_interface w b selected_filter s).2.
Proof.
  rewrite chat_interface_run.
  destruct (truthy (chat_input w)) as [user_prompt|].
  - set (s0 := push (redraw (transcript s)) (set_messages (transcript s) s)).
    destruct (chat_handler_run b selected_filter user_prompt s0 (transcript s))
      as (o & calls & Hcalls & _ & ->); [done|].
    assert (Forall (λ ev, no_init ev = true) calls) as Hcalls'
      by (eapply Forall_impl; [exact Hcalls|apply is_call_no_init]).
    destruct o as [response|e|]; simpl.
    + exists [user_turn user_prompt; assistant_turn response],
        (redraw (transcript s) ++ StChatMarkdown "user" user_prompt :: calls ++
         [StChatMarkdown "assistant" response]).
      unfold transcript at 1. simpl. rewrite <- app_assoc.
      repeat split; [right; right; eauto|].
      apply Forall_app. split; [apply redraw_no_init|].
      constructor; [done|]. apply Forall_app. split; [done|by constructor].
    + exists [user_turn user_prompt],
        (redraw (transcript s) ++ StChatMarkdown "user" user_prompt :: calls).
      unfold transcript at 1. simpl. rewrite <- app_assoc.
      repeat split; [right; left; eauto|].
      apply Forall_app. split; [apply redraw_no_init|]. by constructor.
    + exists [user_turn user_prompt],
        (redraw (transcript s) ++ StChatMarkdown "user" user_prompt :: calls).
      unfold transcript at 1. simpl. rewrite <- app_assoc.
      repeat split; [right; left; eauto|].
      apply Forall_app. split; [apply redraw_no_init|]. by constructor.
  - exists [], (redraw (transcript s)). unfold transcript at 1. simpl.
    rewrite app_nil_r. repeat split; [by left|apply redraw_no_init].
Qed.

(** The script after the backend is there: the sidebar, then the chat. *)
Lemma sidebar_chat_advances w b s :
  advances no_init s
    (bind (sidebar w) (λ selected_filter, chat_interface w b selected_filter) s).2.
Proof.
  destruct (stateless_sidebar w) as (o & evs & Hevs & Hside).
  destruct o as [selected_filter|e|].
  - erewrite bind_returned by apply Hside.
    destruct (chat_interface_advances w b selected_filter (push evs s))
      as (suffix & evs' & Ht & Hsuffix & Hc & Hl & Hevs').
    exists suffix, (evs ++ evs'). rewrite Ht, Hc, Hl. simpl.
    rewrite <- app_assoc. repeat split; [done|]. by apply Forall_app.
  - erewrite bind_raised by apply Hside. by apply advances_push.
  - erewrite bind_stopped by apply Hside. by apply advances_push.
Qed.

Lemma initialize_backend_components_cached w openai_api_key index_name s b :
  cached_backend s = Some b →
  initialize_backend_components w openai_api_key index_name s = (Returned b, s).
Proof. unfold initialize_backend_components. by intros ->. Qed.

Lemma initialize_backend_components_fresh w openai_api_key index_name s :
  cached_backend s = None →
  initialize_backend_components w openai_api_key index_name s =
    match connect w openai_api_key index_name with
    | Ok b =>
        (Returned b,
         {| messages := messages s; cached_backend := Some b;
            log := log s ++ [InitBackend openai_api_key index_name] |})
    | Err e => (Raised e, push [InitBackend openai_api_key index_name] s)
    end.
Proof.
  intros Hcache. unfold initialize_backend_components. rewrite Hcache.
  destruct (connect w openai_api_key index_name) as [b|e].
  - by erewrite bind_returned by (by rewrite call_run).
  - by erewrite bind_raised by (by rewrite call_run).
Qed.

(** With a backend in the cache, a run leaves it there and creates none. *)
Lemma app_advances_cached w s b :
  cached_backend s = Some b → advances no_init s (app w s).2.
Proof.
  intros Hcache. unfold app.
  destruct (stateless_load_secrets w) as (o & evs & Hevs & Hload).
  destruct o as [[[openai_api_key pinecone_api_key] index_name]|e|].
  - erewrite bind_returned by apply Hload. cbv beta iota.
    erewrite bind_returned
      by (by apply initialize_backend_components_cached with (b := b)).
    destruct (sidebar_chat_advances w b (push evs s))
      as (suffix & evs' & Ht & Hsuffix & Hc & Hl & Hevs').
    exists suffix, (evs ++ evs'). rewrite Ht, Hc, Hl. simpl.
    rewrite <- app_assoc. repeat split; [done|]. by apply Forall_app.
  - erewrite bind_raised by apply Hload. by apply advances_push.
  - erewrite bind_stopped by apply Hload. by apply advances_push.
Qed.

(** What a run, any run, does to the transcript. *)
Lemma app_transcript w s :
  ∃ suffix, transcript (app w s).2 = transcript s ++ suffix ∧ turn_suffix suffix.
Proof.
  destruct (cached_backend s) as [b|] eqn:Hcache.
  { destruct (app_advances_cached w s b Hcache) as (suffix & ? & ? & ? & _). eauto. }
  unfold app.
  destruct (stateless_load_secrets w) as (o & evs & Hevs & Hload).
  destruct o as [[[openai_api_key pinecone_api_key] index_name]|e|].
  2:{ erewrite bind_raised by apply Hload. exists []. rewrite app_nil_r.
      split; [done|by left]. }
  2:{ erewrite bind_stopped by apply Hload. exists []. rewrite app_nil_r.
      split; [done|by left]. }
  erewrite bind_returned by apply Hload. cbv beta iota.
  pose proof (initialize_backend_components_fresh w openai_api_key index_name
                (push evs s) Hcache) as Hinit.
  destruct (connect w openai_api_key index_name) as [b|e].
  - erewrite bind_returned by exact Hinit.
    match goal with |- context [bind (sidebar w) ?f ?s1] =>
      destruct (sidebar_chat_advances w b s1) as (suffix & ? & Ht & Hsuffix & _)
    end.
    exists suffix. by rewrite Ht.
  - erewrite bind_raised by exact Hinit.
    exists []. rewrite app_nil_r. split; [done|by left].
Qed.

Lemma run_many_cons w ws s : run_many (w :: ws) s = run_many ws (app w s).2.
Proof. done. Qed.

(** X5. Once a backend is cached, it stays cached through any sequence of
    runs, whatever their worlds (secrets changed or missing, services down,
    failed turns), and none of these runs creates a backend again. *)
Theorem cache_is_kept (ws : list world) (s : session) (b : backend) :
  cached_backend s = Some b →
  cached_backend (run_many ws s) = Some b ∧
  filter (λ ev, is_init ev = true) (log (run_many ws s)) =
    filter (λ ev, is_init ev = true) (log s).
Proof.
  revert s. induction ws as [|w ws IH]; intros s Hcache; [done|].
  rewrite run_many_cons.
  destruct (app_advances_cached w s b Hcache) as (_ & evs & _ & _ & Hc & Hl & Hevs).
  destruct (IH (app w s).2) as [IH1 IH2]; [by rewrite Hc|].
  split; [done|].
  by rewrite IH2, Hl, filter_app, (filter_is_init_no_init evs), app_nil_r.
Qed.

Lemma cache_is_kept_witness :
  cached_backend
    (run_many [demo_world; no_secrets_world; connect_down_world; llm_down_world]
       ongoing_session) = Some demo_backend ∧
  filter (λ ev, is_init ev = true)
    (log (run_many [demo_world; no_secrets_world; connect_down_world; llm_down_world]
            ongoing_session)) =
    filter (λ ev, is_init ev = true) (log ongoing_session).
Proof.
  apply (cache_is_kept
           [demo_world; no_secrets_world; connect_down_world; llm_down_world]
           ongoing_session demo_backend).
  reflexivity.
Defined.

(** X6. A backend whose creation fails is not cached: with an empty cache
    and both API keys, when a constructor raises, the run ends with that
    exception right after the attempt, before the sidebar and the chat;
    the cache stays empty, so that the next run tries again, and the
    transcript is untouched. *)
Theorem failed_init_not_cached (w : world) (s : session) (v1 v2 : string) (e : exn) :
  cached_backend s = None →
  secrets w !! "OPENAI_API_KEY" = Some v1 →
  secrets w !! "PINECONE_API_KEY" = Some v2 →
  connect w v1 (default default_index_name (secrets w !! "PINECONE_INDEX_NAME")) =
    Err e →
  app w s =
    (Raised e,
     push [InitBackend v1
             (default default_index_name (secrets w !! "PINECONE_INDEX_NAME"))] s) ∧
  cached_backend (app w s).2 = None ∧
  messages (app w s).2 = messages s.
Proof.
  intros Hcache Hkey1 Hkey2 Hconnect.
  assert (app w s =
    (Raised e,
     push [InitBackend v1
             (default default_index_name (secrets w !! "PINECONE_INDEX_NAME"))] s))
    as Happ.
  { unfold app. erewrite bind_returned by (by apply load_secrets_both).
    cbv beta iota. erewrite bind_raised; [done|].
    by rewrite initialize_backend_components_fresh, Hconnect. }
  rewrite Happ. done.
Qed.

Lemma failed_init_not_cached_witness :
  app connect_down_world fresh_session =
    (Raised (BackendError "pinecone"),
     push [InitBackend "sk-test"
             (default default_index_name
                (secrets connect_down_world !! "PINECONE_INDEX_NAME"))]
       fresh_session) ∧
  cached_backend (app connect_down_world fresh_session).2 = None ∧
  messages (app connect_down_world fresh_session).2 = messages fresh_session.
Proof.
  apply (failed_init_not_cached connect_down_world fresh_session
           "sk-test" "pc-test" (BackendError "pinecone")); reflexivity.
Defined.

(** X7. When [PINECONE_INDEX_NAME] is in the secret store, the backend is
    created for that name and not for the default one; in a run that starts
    with an empty cache this happens once, before everything else the run
    logs, and the backend is cached whatever the rest of the run does. *)
Theorem index_name_from_secrets
    (w : world) (s : session) (v1 v2 index_name : string) (b : backend) :
  cached_backend s = None →
  secrets w !! "OPENAI_API_KEY" = Some v1 →
  secrets w !! "PINECONE_API_KEY" = Some v2 →
  secrets w !! "PINECONE_INDEX_NAME" = Some index_name →
  connect w v1 index_name = Ok b →
  cached_backend (app w s).2 = Some b ∧
  ∃ evs, log (app w s).2 = log s ++ InitBackend v1 index_name :: evs ∧
         Forall (λ ev, no_init ev = true) evs.
Proof.
  intros Hcache Hkey1 Hkey2 Hindex Hconnect. unfold app.
  erewrite bind_returned by (by apply load_secrets_both).
  rewrite Hindex. cbv beta iota. simpl default.
  erewrite bind_returned
    by (by rewrite initialize_backend_components_fresh, Hconnect).
  match goal with |- context [bind (sidebar w) ?f ?s1] =>
    destruct (sidebar_chat_advances w b s1) as (_ & evs & _ & _ & Hc & Hl & Hevs)
  end.
  rewrite Hc, Hl. simpl. split; [done|]. exists evs. by rewrite <- app_assoc.
Qed.

Lemma index_name_from_secrets_witness :
  cached_backend (app custom_index_world fresh_session).2 = Some demo_backend ∧
  ∃ evs, log (app custom_index_world fresh_session).2 =
           log fresh_session ++ InitBackend "sk-test" "emba-2025" :: evs ∧
         Forall (λ ev, no_init ev = true) evs.
Proof.
  apply (index_name_from_secrets custom_index_world fresh_session
           "sk-test" "pc-test" "emba-2025" demo_backend); reflexivity.
Defined.

(** X8. A run in which nothing was typed, or in which the chat input gave
    the empty string, redraws the transcript and does nothing else: it
    returns, the transcript is the same, and no call leaves the process. *)
Theorem idle_run (w : world) (b : backend) (selected_filter : pyval) (s : session) :
  chat_input w = None ∨ chat_input w = Some EmptyString →
  chat_interface w b selected_filter s =
    (Returned tt, push (redraw (transcript s)) (set_messages (transcript s) s)) ∧
  transcript (chat_interface w b selected_filter s).2 = transcript s.
Proof.
  intros Hinput. rewrite chat_interface_run.
  assert (truthy (chat_input w) = None) as -> by (by destruct Hinput as [->| ->]).
  done.
Qed.

Lemma idle_run_witness :
  chat_interface idle_world demo_backend (PStr "All") ongoing_session =
    (Returned tt,
     push (redraw (transcript ongoing_session))
       (set_messages (transcript ongoing_session) ongoing_session)) ∧
  transcript (chat_interface idle_world demo_backend (PStr "All") ongoing_session).2 =
    transcript ongoing_session.
Proof.
  apply (idle_run idle_world demo_backend (PStr "All") ongoing_session).
  left. reflexivity.
Defined.

(** X9. Every run of the chat interface first redraws the whole
    transcript, each entry under its role and in order; when a question was
    typed, the next thing drawn is that question, under ["user"]. *)
Theorem run_redraws_transcript
    (w : world) (b : backend) (selected_filter : pyval) (s : session) :
  ∃ evs,
    log (chat_interface w b selected_filter s).2 =
      log s ++ redraw (transcript s) ++ evs ∧
    match truthy (chat_input w) with
    | None => evs = []
    | Some user_prompt => ∃ rest, evs = StChatMarkdown "user" user_prompt :: rest
    end.
Proof.
  rewrite chat_interface_run.
  destruct (truthy (chat_input w)) as [user_prompt|].
  - set (s0 := push (redraw (transcript s)) (set_messages (transcript s) s)).
    destruct (chat_handler_run b selected_filter user_prompt s0 (transcript s))
      as (o & calls & _ & _ & ->); [done|].
    destruct o as [response|e|]; simpl; rewrite <- app_assoc; eauto.
  - exists []. simpl. by rewrite app_nil_r.
Qed.

Lemma well_paired_app t suffix :
  well_paired t → turn_suffix suffix → well_paired (t ++ suffix).
Proof.
  intros Ht Hsuffix i m Hi Hrole.
  apply lookup_app_Some in Hi as [Hi|[Hge Hi]].
  - destruct (Ht i m Hi Hrole) as (j & u & -> & Hj & Hu).
    exists j, u. split; [done|]. split; [by apply lookup_app_l_Some|done].
  - destruct Hsuffix as [->|[[q ->]|(q & r & ->)]].
    + done.
    + destruct (i - length t) as [|n]; simplify_eq/=.
    + destruct (i - length t) as [|[|n]] eqn:Hn; simplify_eq/=.
      exists (length t), (user_turn q). split; [lia|]. split; [|done].
      by rewrite lookup_app_r, Nat.sub_diag.
Qed.

(** X10. Through any sequence of runs, every assistant entry of the
    transcript stands right after a user entry: an answer is never appended
    without its question, whatever fails in between.  (Two user entries in
    a row do occur, after a turn that failed.) *)
Theorem transcript_well_paired (ws : list world) (s : session) :
  well_paired (transcript s) → well_paired (transcript (run_many ws s)).
Proof.
  revert s. induction ws as [|w ws IH]; intros s Hs; [done|].
  rewrite run_many_cons. apply IH.
  destruct (app_transcript w s) as (suffix & -> & Hsuffix).
  by apply well_paired_app.
Qed.

Lemma transcript_well_paired_witness :
  transcript
    (run_many [asking "What is value-based pricing?"; asking "What is a bond?";
               asking "What is value-based pricing?"] moody_session) =
    [user_turn "Hello"; assistant_turn "Hi.";
     user_turn "What is value-based pricing?"; assistant_turn "An answer.";
     user_turn "What is a bond?";
     user_turn "What is value-based pricing?"; assistant_turn "An answer."] ∧
  well_paired
    (transcript
       (run_many [asking "What is value-based pricing?"; asking "What is a bond?";
                  asking "What is value-based pricing?"] moody_session)).
Proof.
  split; [vm_compute; reflexivity|].
  apply (transcript_well_paired
           [asking "What is value-based pricing?"; asking "What is a bond?";
            asking "What is value-based pricing?"] moody_session).
  intros i m Hi Hrole.
  destruct i as [|[|i]]; simplify_eq/=.
  exists 0, (user_turn "Hello"). done.
Defined.

(** The first run caches a backend whose language model is down; the
    second run uses it again, and both questions stay without an answer. *)
Example failed_turns_leave_questions :
  transcript (run_many [llm_down_world; demo_world] fresh_session) =
    [user_turn "What is value-based pricing?";
     user_turn "What is value-based pricing?"].
Proof. vm_compute. reflexivity. Qed.

(** X11. Over the life of a session the transcript only grows: after any
    sequence of runs of the script, runs that stop at startup or fail
    included, the transcript the session started with is a prefix of the
    transcript it ends with. *)
Theorem transcript_grows_over_session (ws : list world) (s : session) :
  transcript s `prefix_of` transcript (run_many ws s).
Proof.
  revert s. induction ws as [|w ws IH]; intros s; [done|].
  rewrite run_many_cons. etrans; [|apply IH].
  destruct (app_transcript w s) as (suffix & -> & _). by apply prefix_app_r.
Qed.

(** X12. The filter of the retrieval is made from what the dropdown
    returned in the same run: with both API keys, a cached backend, a
    [topics.json] that decodes and a question typed, the run offers the
    dropdown the topics, redraws the transcript, draws the question, and
    its first call is the retrieval, for the question, with the kwargs made
    from the selected value. *)
Theorem selected_filter_reaches_retrieval
    (w : world) (s : session) (b : backend) (v1 v2 : string)
    (available_filters selected_filter : pyval) (user_prompt : string) :
  secrets w !! "OPENAI_API_KEY" = Some v1 →
  secrets w !! "PINECONE_API_KEY" = Some v2 →
  cached_backend s = Some b →
  topics_json w = Ok (Ok available_filters) →
  selectbox w available_filters = Ok selected_filter →
  truthy (chat_input w) = Some user_prompt →
  ∃ rest,
    log (app w s).2 =
      log s ++ StSelectbox available_filters :: redraw (transcript s) ++
      StChatMarkdown "user" user_prompt ::
      Retrieve (make_search_kwargs selected_filter) user_prompt :: rest.
Proof.
  intros Hkey1 Hkey2 Hcache Hfile Hselect Hinput. unfold app.
  erewrite bind_returned by (by apply load_secrets_both). cbv beta iota.
  erewrite bind_returned by (by apply initialize_backend_components_cached).
  erewrite bind_returned; last first.
  { unfold sidebar.
    erewrite bind_returned
      by (unfold load_topics, try_except, bind; by rewrite Hfile).
    by rewrite call_run, Hselect. }
  rewrite chat_interface_run, Hinput. unfold chat_handler.
  erewrite bind_returned by (by apply append_message_run).
  erewrite bind_returned by apply emit_run.
  match goal with |- context [bind (rag_execution_logic b ?f ?q) ?k ?s1] =>
    destruct (rag_execution_logic_trace b f q s1) as (o & rest & Hrun & _)
  end.
  destruct o as [response|e|].
  - erewrite bind_returned by exact Hrun.
    erewrite bind_returned by apply emit_run.
    erewrite append_message_run by done. simpl.
    rewrite <- !app_assoc. simpl. eauto.
  - erewrite bind_raised by exact Hrun. simpl.
    rewrite <- !app_assoc. simpl. eauto.
  - erewrite bind_stopped by exact Hrun. simpl.
    rewrite <- !app_assoc. simpl. eauto.
Qed.

Lemma selected_filter_reaches_retrieval_witness :
  ∃ rest,
    log (app demo_world ongoing_session).2 =
      log ongoing_session ++
      StSelectbox (PList [PStr "All"; PStr "Finance"]) ::
      redraw (transcript ongoing_session) ++
      StChatMarkdown "user" "What is value-based pricing?" ::
      Retrieve (make_search_kwargs (PStr "Finance"))
        "What is value-based pricing?" :: rest.
Proof.
  apply (selected_filter_reaches_retrieval demo_world ongoing_session demo_backend
           "sk-test" "pc-test" (PList [PStr "All"; PStr "Finance"])
           (PStr "Finance") "What is value-based pricing?"); reflexivity.
Defined.

(** ** Strings put together without escaping *)

(** X13. The prompt is put together without escaping: a question that holds
    the text that stands between context and question in the template gives
    the same prompt as the part before that text taken as more context and
    the part after it taken as the question. *)
Theorem qa_template_no_escaping (context question1 question2 : string) :
  qa_template context (question1 +:+ qa_middle +:+ question2) =
  qa_template (context +:+ qa_middle +:+ question1) question2.
Proof.
  unfold qa_template, qa_middle. by rewrite !string_app_assoc.
Qed.

(** X14. The context is put together without escaping: a passage that
    holds the separator cannot be told from several passages.  Joining a
    list whose first item is itself a joined list gives the same context as
    joining the flattened list. *)
Theorem join_flattens (separator : string) (items1 items2 : list string) :
  items1 ≠ [] →
  join separator (join separator items1 :: items2) =
    join separator (items1 ++ items2).
Proof.
  intros Hne. induction items1 as [|x [|y items1] IH]; [done|done|].
  specialize (IH ltac:(done)).
  change (join separator (x :: y :: items1))
    with (x +:+ separator +:+ join separator (y :: items1)).
  change (join separator ((x :: y :: items1) ++ items2))
    with (x +:+ separator +:+ join separator ((y :: items1) ++ items2)).
  rewrite <- IH. destruct items2 as [|z items2]; [done|].
  change (join separator (?a :: z :: items2))
    with (a +:+ separator +:+ join separator (z :: items2)).
  by rewrite !string_app_assoc.
Qed.

Lemma join_flattens_witness :
  join sep [join sep ["ccc"; "bb"]; "a"] = join sep (["ccc"; "bb"] ++ ["a"]).
Proof. apply (join_flattens sep ["ccc"; "bb"] ["a"]). discriminate. Defined.

(** ** What is drawn and what is stored *)

(** X15. In a run that answers a question, the response that is drawn,
    the response that is appended to the transcript and the response the
    pipeline returned are one and the same string, and it is the last thing
    drawn and the last entry of the transcript. *)
Theorem response_drawn_and_stored
    (w : world) (b : backend) (selected_filter : pyval) (user_prompt : string)
    (s : session) :
  truthy (chat_input w) = Some user_prompt →
  (chat_interface w b selected_filter s).1 = Returned tt →
  ∃ response,
    (∀ s0, (rag_execution_logic b selected_filter user_prompt s0).1 =
           Returned response) ∧
    last (transcript (chat_interface w b selected_filter s).2) =
      Some (assistant_turn response) ∧
    last (log (chat_interface w b selected_filter s).2) =
      Some (StChatMarkdown "assistant" response).
Proof.
  intros Hinput. rewrite chat_interface_run, Hinput.
  set (s0 := push (redraw (transcript s)) (set_messages (transcript s) s)).
  destruct (chat_handler_run b selected_filter user_prompt s0 (transcript s))
    as (o & calls & _ & Ho & ->); [done|].
  destruct (rag_execution_logic_cases b selected_filter user_prompt)
    as (o' & calls' & _ & Hrun).
  rewrite Hrun in Ho. simpl in Ho. subst o'.
  destruct o as [response|e|]; [|done..]. intros _.
  exists response. split; [intros s1; by rewrite Hrun|].
  unfold transcript at 1. simpl. split.
  - apply last_Some. exists (transcript s ++ [user_turn user_prompt]).
    by rewrite <- app_assoc.
  - apply last_Some.
    exists ((log s ++ redraw (transcript s)) ++
            StChatMarkdown "user" user_prompt :: calls).
    by rewrite <- (app_assoc _ (_ :: calls)).
Qed.

Lemma response_drawn_and_stored_witness :
  ∃ response,
    (∀ s0, (rag_execution_logic demo_backend (PStr "All")
              "What is value-based pricing?" s0).1 = Returned response) ∧
    last (transcript (chat_interface demo_world demo_backend (PStr "All")
                        ongoing_session).2) =
      Some (assistant_turn response) ∧
    last (log (chat_interface demo_world demo_backend (PStr "All")
                 ongoing_session).2) =
      Some (StChatMarkdown "assistant" response).
Proof.
  apply (response_drawn_and_stored demo_world demo_backend (PStr "All")
           "What is value-based pricing?" ongoing_session).
  - reflexivity.
  - vm_compute. reflexivity.
Defined.

(** X16. Whatever the ranker does, what [rerank_docs] returns is what the
    first five results of the ranker hold under ["text"], in the ranker's
    order: at most five items, none of them made up by [rerank_docs]. *)
Theorem rerank_docs_returns_ranker_texts
    (b : backend) (query : string) (docs : list document) (s s' : session)
    (out : list pyval) :
  rerank_docs b query docs s = (Returned out, s') →
  ∃ results,
    ranker_rerank b query (page_content <$> docs) = Ok results ∧
    text_of <$> take 5 results = Some <$> out ∧
    (length out ≤ 5)%nat ∧
    s' = push [Rerank query (page_content <$> docs)] s.
Proof.
  unfold rerank_docs.
  destruct (ranker_rerank b query (page_content <$> docs)) as [results|e] eqn:Hrank.
  2:{ by erewrite bind_raised by (by rewrite call_run). }
  erewrite bind_returned by (by rewrite call_run).
  destruct (texts_dichotomy (take 5 results)) as [[values Htexts]|Hmissing].
  - rewrite (for_each_text _ values) by done. intros [= <- <-].
    exists results. repeat split; [done|].
    apply (f_equal length) in Htexts. rewrite !length_fmap, length_take in Htexts.
    lia.
  - by rewrite for_each_text_missing.
Qed.

Lemma rerank_docs_returns_ranker_texts_witness :
  ∃ results,
    ranker_rerank six_results_backend "q" (page_content <$> [doc "bb"; doc "a"]) =
      Ok results ∧
    text_of <$> take 5 results = Some <$> (PStr <$> ["1"; "2"; "3"; "4"; "5"]) ∧
    (length (PStr <$> ["1"; "2"; "3"; "4"; "5"]) ≤ 5)%nat ∧
    push [Rerank "q" ["bb"; "a"]] fresh_session =
      push [Rerank "q" (page_content <$> [doc "bb"; doc "a"])] fresh_session.
Proof.
  apply (rerank_docs_returns_ranker_texts six_results_backend "q"
           [doc "bb"; doc "a"] fresh_session
           (push [Rerank "q" ["bb"; "a"]] fresh_session)
           (PStr <$> ["1"; "2"; "3"; "4"; "5"])).
  vm_compute. reflexivity.
Defined.

(** ** The reranking step and the transcript, on the code alone *)




(** One run that handles a question, whole: the outcome of the pipeline,
    which does not depend on the session, decides what is drawn and what
    is appended. *)
Lemma chat_interface_turn w b selected_filter user_prompt s :
  truthy (chat_input w) = Some user_prompt →
  ∃ o calls,
    (∀ s0, (rag_execution_logic b selected_filter user_prompt s0).1 = o) ∧
    chat_interface w b selected_filter s =
      match o with
      | Returned response =>
          (Returned tt,
           set_messages
             (transcript s ++ [user_turn user_prompt; assistant_turn response])
             (push (redraw (transcript s) ++
                    StChatMarkdown "user" user_prompt :: calls ++
                    [StChatMarkdown "assistant" response]) s))
      | Raised e =>
          (Raised e,
           set_messages (transcript s ++ [user_turn user_prompt])
             (push (redraw (transcript s) ++
                    StChatMarkdown "user" user_prompt :: calls) s))
      | Stopped =>
          (Stopped,
           set_messages (transcript s ++ [user_turn user_prompt])
             (push (redraw (transcript s) ++
                    StChatMarkdown "user" user_prompt :: calls) s))
      end.
Proof.
  intros Hinput. rewrite chat_interface_run, Hinput.
  set (s0 := push (redraw (transcript s)) (set_messages (transcript s) s)).
  destruct (chat_handler_run b selected_filter user_prompt s0 (transcript s))
    as (o & calls & _ & Ho & ->); [done|].
  destruct (rag_execution_logic_cases b selected_filter user_prompt)
    as (o' & calls' & _ & Hrun).
  rewrite Hrun in Ho. simpl in Ho. subst o'.
  exists o, calls. split; [intros s1; by rewrite Hrun|].
  destruct o; unfold set_messages, push, s0; simpl; by rewrite <- !app_assoc.
Qed.

(** C6. One run of the chat interface leaves every entry the transcript
    had where it was, with its role and content; without a question it adds
    nothing; with a question it appends the typed question under ["user"]
    and then, when the run returns, under ["assistant"] the response: the
    string the pipeline returned for that question, which is also the last
    thing the run drew.  A run that does not return appends the question
    only. *)
Theorem transcript_append_only
    (w : world) (b : backend) (selected_filter : pyval) (s : session) :
  (∀ i m, transcript s !! i = Some m →
          transcript (chat_interface w b selected_filter s).2 !! i = Some m) ∧
  match truthy (chat_input w) with
  | None => transcript (chat_interface w b selected_filter s).2 = transcript s
  | Some user_prompt =>
      match (chat_interface w b selected_filter s).1 with
      | Returned _ =>
          ∃ response,
            (∀ s0, (rag_execution_logic b selected_filter user_prompt s0).1 =
                   Returned response) ∧
            transcript (chat_interface w b selected_filter s).2 =
              transcript s ++
              [{| role := "user"; content := user_prompt |};
               {| role := "assistant"; content := response |}] ∧
            last (log (chat_interface w b selected_filter s).2) =
              Some (StChatMarkdown "assistant" response)
      | _ =>
          transcript (chat_interface w b selected_filter s).2 =
            transcript s ++ [{| role := "user"; content := user_prompt |}]
      end
  end.
Proof.
  destruct (truthy (chat_input w)) as [user_prompt|] eqn:Hinput.
  - destruct (chat_interface_turn w b selected_filter user_prompt s Hinput)
      as (o & calls & Ho & ->).
    destruct o as [response|e|]; simpl; unfold transcript at 2 4; simpl.
    + split; [intros i m Hi; by apply lookup_app_l_Some|].
      exists response. split; [done|]. split; [done|].
      apply last_Some.
      exists ((log s ++ redraw (transcript s)) ++
              StChatMarkdown "user" user_prompt :: calls).
      by rewrite <- !app_assoc.
    + split; [intros i m Hi; by apply lookup_app_l_Some|done].
    + split; [intros i m Hi; by apply lookup_app_l_Some|done].
  - rewrite chat_interface_run, Hinput. simpl. unfold transcript at 2 4. simpl.
    split; [by intros i m Hi|done].
Qed.
